(** * Zoo: entity model and tagged persistence (src/main.py)

    A shallow embedding of the classes of [main.py] and of the
    save/load codec of [Zoo].

    - Python [int] is [Z], [str] is [string], [bool] is [bool] and
      [float] is an IEEE binary64 number ([PrimFloat.float]); fields and
      parameters have the types of the annotations in the source.
    - Objects are records; a method that mutates an object returns the
      updated record (explicit state passing). The classes that extend
      [Animal] and [Employee] are the constructors of [variant].
    - A raised exception is the [Raises] outcome of the [result] type.
    - The dictionaries built by [to_dict], written by [json.dump] and
      read back by [json.load] are typed as the annotation of [to_dict]
      and the file format give them: each key the code reads is either
      absent or bound to a value of the type the format declares for it.
      Keys that the code never reads are not represented.
    - The file system is a finite map from paths to what the files
      hold, with the paths that refuse writing and the handles that the
      program opened and has not closed itself, by [close] or by leaving
      a [with] block. A file holds what [json.dump] wrote to it once
      that call has returned.
    - [datetime.now()] is a parameter [today] of the functions that
      reach it.
    - [fly], [run] and [crawl] only format a string and take part in
      nothing below; they are left out. *)

From Stdlib Require Import ZArith String List Floats DecimalString.
From stdpp Require Import gmap strings list.

Local Open Scope Z_scope.
Local Open Scope string_scope.

(** ** Exceptions and outcomes *)

Inductive exn : Type :=
| KeyError (key : string)
| FileNotFoundError (filename : string)
| PermissionError (filename : string)
| JSONDecodeError.

Inductive result (A : Type) : Type :=
| Returns (a : A)
| Raises (e : exn).
Arguments Returns {A} a.
Arguments Raises {A} e.

(** Sequencing: an exception raised by a step ends the computation. *)
#[global] Instance result_ret : MRet result := fun A a => Returns a.
#[global] Instance result_bind : MBind result := fun A B k c =>
  match c with
  | Returns a => k a
  | Raises e => Raises e
  end.

(** [d[key]] on a dictionary: the bound value, or [KeyError]. *)
Definition getitem {A : Type} (key : string) (slot : option A) : result A :=
  match slot with
  | Some v => Returns v
  | None => Raises (KeyError key)
  end.

(** [str(n)] for an [int]. *)
Definition str_of_int (n : Z) : string := NilZero.string_of_int (Z.to_int n).

(** [sep.join(lines)]. *)
Definition join (sep : string) (lines : list string) : string :=
  String.concat sep lines.

Definition newline : string := String (Ascii.ascii_of_nat 10) EmptyString.

(** ** Dictionaries of the persisted document *)

(** The result of [Animal.to_dict] and its overrides; also one element
    of [data["animals"]] at load time. *)
Module AnimalDict.
Record t : Type := Build {
  type : option string;
  name : option string;
  age : option Z;
  species : option string;
  health : option Z;
  hunger : option Z;
  wingspan : option float;
  fur_color : option string;
  is_venomous : option bool
}.
End AnimalDict.

(** The result of [Employee.to_dict]; one element of [data["employees"]]. *)
Module EmployeeDict.
Record t : Type := Build {
  type : option string;
  name : option string;
  id_number : option string;
  specialization : option string
}.
End EmployeeDict.

(** The top-level dictionary [data]. *)
Module ZooDict.
Record t : Type := Build {
  name : option string;
  founded_date : option string;
  animals : option (list AnimalDict.t);
  employees : option (list EmployeeDict.t)
}.
End ZooDict.

(** ** Animals *)

Module Animal.
(** The concrete class of an animal with the field it adds. *)
Inductive variant : Type :=
| Bird (wingspan : float)
| Mammal (fur_color : string)
| Reptile (is_venomous : bool).

Record t : Type := Build {
  name : string;
  age : Z;
  species : string;
  health : Z;
  hunger : Z;
  cls : variant
}.

(** [Animal.__init__], reached through [super().__init__]. *)
Definition init (name : string) (age : Z) (species : string) (cls : variant) : t :=
  {| name := name; age := age; species := species;
     health := 100; hunger := 0; cls := cls |}.

Definition set_health (self : t) (v : Z) : t :=
  {| name := name self; age := age self; species := species self;
     health := v; hunger := hunger self; cls := cls self |}.

Definition set_hunger (self : t) (v : Z) : t :=
  {| name := name self; age := age self; species := species self;
     health := health self; hunger := v; cls := cls self |}.

(** [self.__class__.__name__] *)
Definition class_name (self : t) : string :=
  match cls self with
  | Bird _ => "Bird"
  | Mammal _ => "Mammal"
  | Reptile _ => "Reptile"
  end.

Definition make_sound (self : t) : string :=
  match cls self with
  | Bird _ => name self ++ " chirps: Tweet tweet!"
  | Mammal _ => name self ++ " roars: Roar!"
  | Reptile _ => name self ++ " hisses: Hiss!"
  end.

(** [eat] returns the updated receiver and the status string. *)
Definition eat (self : t) (food_amount : Z) : t * string :=
  let self' := set_hunger self (Z.max 0 (hunger self - food_amount)) in
  (self', name self' ++ " has eaten. Hunger level: " ++ str_of_int (hunger self')).

(** [Animal.to_dict] followed by the override of the concrete class,
    which adds its own key. *)
Definition base_to_dict (self : t) : AnimalDict.t :=
  {| AnimalDict.type := Some (class_name self);
     AnimalDict.name := Some (name self);
     AnimalDict.age := Some (age self);
     AnimalDict.species := Some (species self);
     AnimalDict.health := Some (health self);
     AnimalDict.hunger := Some (hunger self);
     AnimalDict.wingspan := None;
     AnimalDict.fur_color := None;
     AnimalDict.is_venomous := None |}.

Definition to_dict (self : t) : AnimalDict.t :=
  let data := base_to_dict self in
  match cls self with
  | Bird w =>
      {| AnimalDict.type := AnimalDict.type data; AnimalDict.name := AnimalDict.name data;
         AnimalDict.age := AnimalDict.age data; AnimalDict.species := AnimalDict.species data;
         AnimalDict.health := AnimalDict.health data; AnimalDict.hunger := AnimalDict.hunger data;
         AnimalDict.wingspan := Some w;
         AnimalDict.fur_color := AnimalDict.fur_color data;
         AnimalDict.is_venomous := AnimalDict.is_venomous data |}
  | Mammal c =>
      {| AnimalDict.type := AnimalDict.type data; AnimalDict.name := AnimalDict.name data;
         AnimalDict.age := AnimalDict.age data; AnimalDict.species := AnimalDict.species data;
         AnimalDict.health := AnimalDict.health data; AnimalDict.hunger := AnimalDict.hunger data;
         AnimalDict.wingspan := AnimalDict.wingspan data;
         AnimalDict.fur_color := Some c;
         AnimalDict.is_venomous := AnimalDict.is_venomous data |}
  | Reptile v =>
      {| AnimalDict.type := AnimalDict.type data; AnimalDict.name := AnimalDict.name data;
         AnimalDict.age := AnimalDict.age data; AnimalDict.species := AnimalDict.species data;
         AnimalDict.health := AnimalDict.health data; AnimalDict.hunger := AnimalDict.hunger data;
         AnimalDict.wingspan := AnimalDict.wingspan data;
         AnimalDict.fur_color := AnimalDict.fur_color data;
         AnimalDict.is_venomous := Some v |}
  end.
End Animal.

(** ** Employees *)

Module Employee.
(** The concrete class of an employee; neither adds a field. *)
Inductive variant : Type := ZooKeeper | Veterinarian.

Record t : Type := Build {
  name : string;
  id_number : string;
  specialization : string;
  cls : variant
}.

(** [Employee.__init__], reached through [super().__init__]. *)
Definition init (name id_number specialization : string) (cls : variant) : t :=
  {| name := name; id_number := id_number;
     specialization := specialization; cls := cls |}.

(** [self.__class__.__name__] *)
Definition class_name (self : t) : string :=
  match cls self with
  | ZooKeeper => "ZooKeeper"
  | Veterinarian => "Veterinarian"
  end.

Definition work (self : t) : string :=
  match cls self with
  | ZooKeeper => "Zookeeper " ++ name self ++ " is taking care of the animals"
  | Veterinarian => "Veterinarian " ++ name self ++ " is checking animals' health"
  end.

Definition to_dict (self : t) : EmployeeDict.t :=
  {| EmployeeDict.type := Some (class_name self);
     EmployeeDict.name := Some (name self);
     EmployeeDict.id_number := Some (id_number self);
     EmployeeDict.specialization := Some (specialization self) |}.
End Employee.

(** The methods below take the animal they act on and return it
    updated, next to the string the method returns. *)
Module ZooKeeper.
Definition feed_animal (self : Employee.t) (animal : Animal.t) (food_amount : Z)
  : Animal.t * string :=
  let '(animal', result) := Animal.eat animal food_amount in
  (animal', "Zookeeper " ++ Employee.name self ++ " fed " ++ Animal.name animal'
            ++ ". " ++ result).
End ZooKeeper.

Module Veterinarian.
Definition heal_animal (self : Employee.t) (animal : Animal.t) : Animal.t * string :=
  if (Animal.health animal <? 100)%Z then
    let animal' := Animal.set_health animal (Z.min 100 (Animal.health animal + 20)) in
    (animal', "Veterinarian " ++ Employee.name self ++ " treated " ++ Animal.name animal'
              ++ ". Health now: " ++ str_of_int (Animal.health animal'))
  else
    (animal, Animal.name animal ++ " is already healthy").
End Veterinarian.

(** ** The file system *)

(** What a file holds: the text of a document, or text that
    [json.load] rejects (an empty file among others). *)
Inductive content : Type :=
| Json (data : ZooDict.t)
| NotJson.

(** [files] are the existing files, [readonly] the paths that cannot be
    opened for writing, and [open_handles] the paths of the file objects
    that were opened and that the program has not closed since. *)
Record world : Type := World {
  files : gmap string content;
  readonly : gset string;
  open_handles : list string
}.

(** [open(filename, 'r')] *)
Definition open_r (filename : string) (w : world) : result (content * world) :=
  match files w !! filename with
  | None => Raises (FileNotFoundError filename)
  | Some c =>
      Returns (c, {| files := files w; readonly := readonly w;
                     open_handles := filename :: open_handles w |})
  end.

(** [open(filename, 'w')]: the file is created or truncated. *)
Definition open_w (filename : string) (w : world) : result world :=
  if decide (filename ∈ readonly w) then Raises (PermissionError filename)
  else Returns {| files := <[filename := NotJson]> (files w); readonly := readonly w;
                  open_handles := filename :: open_handles w |}.

(** Removes the first occurrence of [filename]. *)
Fixpoint release (filename : string) (handles : list string) : list string :=
  match handles with
  | [] => []
  | h :: rest => if String.eqb h filename then rest else h :: release filename rest
  end.

(** [f.close()], also what leaving a [with] block does. *)
Definition close (filename : string) (w : world) : world :=
  {| files := files w; readonly := readonly w;
     open_handles := release filename (open_handles w) |}.

(** [json.dump(data, f, indent=4)] on the file object opened at [filename]. *)
Definition json_dump (data : ZooDict.t) (filename : string) (w : world) : world :=
  {| files := <[filename := Json data]> (files w); readonly := readonly w;
     open_handles := open_handles w |}.

(** [json.load(f)] *)
Definition json_load (f : content) : result ZooDict.t :=
  match f with
  | Json data => Returns data
  | NotJson => Raises JSONDecodeError
  end.

(** ** The zoo *)

Module Zoo.
Record t : Type := Build {
  name : string;
  animals : list Animal.t;
  employees : list Employee.t;
  founded_date : string
}.

(** [Zoo.__init__]. [today] is what
    [datetime.now().strftime("%Y-%m-%d")] evaluates to at the call. *)
Definition init (today : string) (name : string) : t :=
  {| name := name; animals := []; employees := []; founded_date := today |}.

Definition set_founded_date (self : t) (v : string) : t :=
  {| name := name self; animals := animals self;
     employees := employees self; founded_date := v |}.

Definition add_animal (self : t) (animal : Animal.t) : t :=
  {| name := name self; animals := animals self ++ [animal];
     employees := employees self; founded_date := founded_date self |}.

Definition add_employee (self : t) (employee : Employee.t) : t :=
  {| name := name self; animals := animals self;
     employees := employees self ++ [employee]; founded_date := founded_date self |}.

Definition list_animals (self : t) : string :=
  join newline
    (map (fun animal => Animal.species animal ++ " " ++ Animal.name animal) (animals self)).

Definition list_employees (self : t) : string :=
  join newline
    (map (fun employee => Employee.class_name employee ++ " " ++ Employee.name employee)
         (employees self)).

Definition animal_sounds (self : t) : string :=
  join newline (map Animal.make_sound (animals self)).

(** The dictionary [data] that [save_to_file] builds. *)
Definition to_data (self : t) : ZooDict.t :=
  {| ZooDict.name := Some (name self);
     ZooDict.founded_date := Some (founded_date self);
     ZooDict.animals := Some (map Animal.to_dict (animals self));
     ZooDict.employees := Some (map Employee.to_dict (employees self)) |}.

(** [save_to_file]: the file object made by [open] is passed to
    [json.dump] and the method returns; it has no [with] block and no
    call of [close]. *)
Definition save_to_file (self : t) (filename : string) (w : world)
  : result unit * world :=
  let data := to_data self in
  match open_w filename w with
  | Raises e => (Raises e, w)
  | Returns w1 => (Returns tt, json_dump data filename w1)
  end.

(** The [if]/[elif] chain on [animal_data["type"]]: the freshly
    constructed animal, or [None] when no branch is taken. *)
Definition construct_animal (animal_data : AnimalDict.t) : result (option Animal.t) :=
  ty ← getitem "type" (AnimalDict.type animal_data);
  if String.eqb ty "Bird" then
    name ← getitem "name" (AnimalDict.name animal_data);
    age ← getitem "age" (AnimalDict.age animal_data);
    species ← getitem "species" (AnimalDict.species animal_data);
    wingspan ← getitem "wingspan" (AnimalDict.wingspan animal_data);
    Returns (Some (Animal.init name age species (Animal.Bird wingspan)))
  else
    ty ← getitem "type" (AnimalDict.type animal_data);
    if String.eqb ty "Mammal" then
      name ← getitem "name" (AnimalDict.name animal_data);
      age ← getitem "age" (AnimalDict.age animal_data);
      species ← getitem "species" (AnimalDict.species animal_data);
      fur_color ← getitem "fur_color" (AnimalDict.fur_color animal_data);
      Returns (Some (Animal.init name age species (Animal.Mammal fur_color)))
    else
      ty ← getitem "type" (AnimalDict.type animal_data);
      if String.eqb ty "Reptile" then
        name ← getitem "name" (AnimalDict.name animal_data);
        age ← getitem "age" (AnimalDict.age animal_data);
        species ← getitem "species" (AnimalDict.species animal_data);
        is_venomous ← getitem "is_venomous" (AnimalDict.is_venomous animal_data);
        Returns (Some (Animal.init name age species (Animal.Reptile is_venomous)))
      else Returns None.

(** One iteration of the loop over [data["animals"]]. *)
Definition load_animal (zoo : t) (animal_data : AnimalDict.t) : result t :=
  animal ← construct_animal animal_data;
  match animal with
  | Some animal =>
      health ← getitem "health" (AnimalDict.health animal_data);
      let animal := Animal.set_health animal health in
      hunger ← getitem "hunger" (AnimalDict.hunger animal_data);
      let animal := Animal.set_hunger animal hunger in
      Returns (add_animal zoo animal)
  | None => Returns zoo
  end.

Fixpoint load_animals (zoo : t) (records : list AnimalDict.t) : result t :=
  match records with
  | [] => Returns zoo
  | animal_data :: rest => zoo' ← load_animal zoo animal_data; load_animals zoo' rest
  end.

Definition construct_employee (employee_data : EmployeeDict.t)
  : result (option Employee.t) :=
  ty ← getitem "type" (EmployeeDict.type employee_data);
  if String.eqb ty "ZooKeeper" then
    name ← getitem "name" (EmployeeDict.name employee_data);
    id_number ← getitem "id_number" (EmployeeDict.id_number employee_data);
    specialization ← getitem "specialization" (EmployeeDict.specialization employee_data);
    Returns (Some (Employee.init name id_number specialization Employee.ZooKeeper))
  else
    ty ← getitem "type" (EmployeeDict.type employee_data);
    if String.eqb ty "Veterinarian" then
      name ← getitem "name" (EmployeeDict.name employee_data);
      id_number ← getitem "id_number" (EmployeeDict.id_number employee_data);
      specialization ← getitem "specialization" (EmployeeDict.specialization employee_data);
      Returns (Some (Employee.init name id_number specialization Employee.Veterinarian))
    else Returns None.

(** One iteration of the loop over [data["employees"]]. *)
Definition load_employee (zoo : t) (employee_data : EmployeeDict.t) : result t :=
  employee ← construct_employee employee_data;
  match employee with
  | Some employee => Returns (add_employee zoo employee)
  | None => Returns zoo
  end.

Fixpoint load_employees (zoo : t) (records : list EmployeeDict.t) : result t :=
  match records with
  | [] => Returns zoo
  | employee_data :: rest => zoo' ← load_employee zoo employee_data; load_employees zoo' rest
  end.

(** The body of [load_from_file] after the [with] block. *)
Definition from_data (today : string) (data : ZooDict.t) : result t :=
  name ← getitem "name" (ZooDict.name data);
  let zoo := init today name in
  founded_date ← getitem "founded_date" (ZooDict.founded_date data);
  let zoo := set_founded_date zoo founded_date in
  records ← getitem "animals" (ZooDict.animals data);
  zoo ← load_animals zoo records;
  records ← getitem "employees" (ZooDict.employees data);
  load_employees zoo records.

(** [load_from_file]: the [with] block closes the file on both of its
    exits, before the rest of the method runs. *)
Definition load_from_file (today : string) (filename : string) (w : world)
  : result t * world :=
  match open_r filename w with
  | Raises e => (Raises e, w)
  | Returns (f, w1) =>
      let loaded := json_load f in
      let w2 := close filename w1 in
      (data ← loaded; from_data today data, w2)
  end.
End Zoo.

(** ** Vocabulary of the properties *)

(** The bounds of the data model on the two mutable fields. *)
Definition valid_animal (a : Animal.t) : Prop :=
  0 <= Animal.health a <= 100 /\ 0 <= Animal.hunger a.

Definition present {A : Type} (slot : option A) : bool :=
  match slot with Some _ => true | None => false end.

Definition animal_tags : list string := ["Bird"; "Mammal"; "Reptile"].
Definition employee_tags : list string := ["ZooKeeper"; "Veterinarian"].

(** The record carries a tag and the tag names a known class. *)
Definition known_tag (tags : list string) (type : option string) : bool :=
  match type with
  | Some ty => existsb (String.eqb ty) tags
  | None => false
  end.

(** The record carries a tag and the tag names no known class. *)
Definition unknown_tag (tags : list string) (type : option string) : bool :=
  match type with
  | Some ty => negb (existsb (String.eqb ty) tags)
  | None => false
  end.

(** The key that a class adds to the keys of [Animal.to_dict]. *)
Definition own_field_present (r : AnimalDict.t) : bool :=
  match AnimalDict.type r with
  | Some "Bird" => present (AnimalDict.wingspan r)
  | Some "Mammal" => present (AnimalDict.fur_color r)
  | Some "Reptile" => present (AnimalDict.is_venomous r)
  | _ => true
  end.

(** Every key that the file format lists for the record's tag is bound. *)
Definition complete_animal (r : AnimalDict.t) : bool :=
  present (AnimalDict.name r) && present (AnimalDict.age r)
  && present (AnimalDict.species r) && present (AnimalDict.health r)
  && present (AnimalDict.hunger r) && own_field_present r.

Definition complete_employee (r : EmployeeDict.t) : bool :=
  present (EmployeeDict.name r) && present (EmployeeDict.id_number r)
  && present (EmployeeDict.specialization r).

Definition animal_known (r : AnimalDict.t) : bool :=
  known_tag animal_tags (AnimalDict.type r).
Definition animal_unknown (r : AnimalDict.t) : bool :=
  unknown_tag animal_tags (AnimalDict.type r).
Definition employee_known (r : EmployeeDict.t) : bool :=
  known_tag employee_tags (EmployeeDict.type r).
Definition employee_unknown (r : EmployeeDict.t) : bool :=
  unknown_tag employee_tags (EmployeeDict.type r).

(** A record that is either to be skipped or fit for construction. *)
Definition loadable_animal (r : AnimalDict.t) : bool :=
  animal_unknown r || (animal_known r && complete_animal r).
Definition loadable_employee (r : EmployeeDict.t) : bool :=
  employee_unknown r || (employee_known r && complete_employee r).

(** A record whose tag names a known class and that lacks a key the
    class requires. *)
Definition malformed_animal (r : AnimalDict.t) : bool :=
  animal_known r && negb (complete_animal r).
Definition malformed_employee (r : EmployeeDict.t) : bool :=
  employee_known r && negb (complete_employee r).

(** The animal has the class the record's tag names and, field by
    field, the values the record binds. *)
Definition animal_matches (a : Animal.t) (r : AnimalDict.t) : Prop :=
  AnimalDict.type r = Some (Animal.class_name a)
  /\ AnimalDict.name r = Some (Animal.name a)
  /\ AnimalDict.age r = Some (Animal.age a)
  /\ AnimalDict.species r = Some (Animal.species a)
  /\ AnimalDict.health r = Some (Animal.health a)
  /\ AnimalDict.hunger r = Some (Animal.hunger a)
  /\ match Animal.cls a with
     | Animal.Bird wingspan => AnimalDict.wingspan r = Some wingspan
     | Animal.Mammal fur_color => AnimalDict.fur_color r = Some fur_color
     | Animal.Reptile is_venomous => AnimalDict.is_venomous r = Some is_venomous
     end.

Definition employee_matches (e : Employee.t) (r : EmployeeDict.t) : Prop :=
  EmployeeDict.type r = Some (Employee.class_name e)
  /\ EmployeeDict.name r = Some (Employee.name e)
  /\ EmployeeDict.id_number r = Some (Employee.id_number e)
  /\ EmployeeDict.specialization r = Some (Employee.specialization e).

(** The values a record binds to [health] and [hunger] respect the
    bounds of the data model. *)
Definition record_in_range (r : AnimalDict.t) : Prop :=
  (forall h, AnimalDict.health r = Some h -> 0 <= h <= 100)
  /\ (forall k, AnimalDict.hunger r = Some k -> 0 <= k).

(** A caller's sequence of [add_animal] and [add_employee] calls. *)
Inductive call : Type :=
| AddAnimal (animal : Animal.t)
| AddEmployee (employee : Employee.t).

Definition perform (zoo : Zoo.t) (c : call) : Zoo.t :=
  match c with
  | AddAnimal animal => Zoo.add_animal zoo animal
  | AddEmployee employee => Zoo.add_employee zoo employee
  end.

Definition perform_all (zoo : Zoo.t) (calls : list call) : Zoo.t :=
  fold_left perform calls zoo.

Fixpoint added_animals (calls : list call) : list Animal.t :=
  match calls with
  | [] => []
  | AddAnimal animal :: rest => animal :: added_animals rest
  | AddEmployee _ :: rest => added_animals rest
  end.

Fixpoint added_employees (calls : list call) : list Employee.t :=
  match calls with
  | [] => []
  | AddAnimal _ :: rest => added_employees rest
  | AddEmployee employee :: rest => employee :: added_employees rest
  end.

Definition animal_line (animal : Animal.t) : string :=
  Animal.species animal ++ " " ++ Animal.name animal.

Definition employee_line (employee : Employee.t) : string :=
  Employee.class_name employee ++ " " ++ Employee.name employee.

(** [n] successive calls of [heal_animal] on the same animal. *)
Fixpoint heal_repeatedly (v : Employee.t) (n : nat) (animal : Animal.t) : Animal.t :=
  match n with
  | O => animal
  | S n' => heal_repeatedly v n' (fst (Veterinarian.heal_animal v animal))
  end.

(** ** The scenario of [main] *)

Definition eagle : Animal.t := Animal.init "Eddie" 5 "Eagle" (Animal.Bird 0x1.0cccccccccccdp+1%float).
Definition lion : Animal.t := Animal.init "Leo" 8 "Lion" (Animal.Mammal "golden").
Definition snake : Animal.t := Animal.init "Sid" 3 "Python" (Animal.Reptile false).
Definition keeper : Employee.t := Employee.init "John" "ZK001" "Large mammals" Employee.ZooKeeper.
Definition vet : Employee.t := Employee.init "Dr. Smith" "VET001" "Avian medicine" Employee.Veterinarian.

Definition central_zoo : Zoo.t :=
  Zoo.add_employee
    (Zoo.add_employee
       (Zoo.add_animal (Zoo.add_animal (Zoo.add_animal (Zoo.init "2024-05-17" "Central Zoo") eagle) lion) snake)
       keeper)
    vet.

Definition empty_world : world := {| files := ∅; readonly := ∅; open_handles := [] |}.

(** Documents that no [save_to_file] call wrote. *)

(** A Bird record whose health and hunger lie outside the bounds. *)
Definition overfed_record : AnimalDict.t :=
  {| AnimalDict.type := Some "Bird"; AnimalDict.name := Some "Eddie";
     AnimalDict.age := Some 5; AnimalDict.species := Some "Eagle";
     AnimalDict.health := Some 150; AnimalDict.hunger := Some (-3);
     AnimalDict.wingspan := Some 0x1.0cccccccccccdp+1%float;
     AnimalDict.fur_color := None; AnimalDict.is_venomous := None |}.

(** A record with a tag that names no class; it also lacks [health]. *)
Definition fish_record : AnimalDict.t :=
  {| AnimalDict.type := Some "Fish"; AnimalDict.name := Some "Nemo";
     AnimalDict.age := Some 1; AnimalDict.species := Some "Clownfish";
     AnimalDict.health := None; AnimalDict.hunger := Some 4;
     AnimalDict.wingspan := None; AnimalDict.fur_color := None;
     AnimalDict.is_venomous := None |}.

(** A Bird record without [wingspan]. *)
Definition wingless_record : AnimalDict.t :=
  {| AnimalDict.type := Some "Bird"; AnimalDict.name := Some "Kiwi";
     AnimalDict.age := Some 2; AnimalDict.species := Some "Kiwi";
     AnimalDict.health := Some 90; AnimalDict.hunger := Some 1;
     AnimalDict.wingspan := None; AnimalDict.fur_color := None;
     AnimalDict.is_venomous := None |}.

Definition janitor_record : EmployeeDict.t :=
  {| EmployeeDict.type := Some "Janitor"; EmployeeDict.name := Some "Bob";
     EmployeeDict.id_number := Some "J001"; EmployeeDict.specialization := Some "Floors" |}.

(** The saved [central_zoo] with a Fish put between the eagle and the
    lion and a Janitor put before the keeper. *)
Definition mixed_data : ZooDict.t :=
  {| ZooDict.name := Some "Central Zoo";
     ZooDict.founded_date := Some "2024-05-17";
     ZooDict.animals :=
       Some [Animal.to_dict eagle; fish_record; Animal.to_dict lion; Animal.to_dict snake];
     ZooDict.employees :=
       Some [janitor_record; Employee.to_dict keeper; Employee.to_dict vet] |}.

(** The saved [central_zoo] followed by a Bird without [wingspan]. *)
Definition malformed_data : ZooDict.t :=
  {| ZooDict.name := Some "Central Zoo";
     ZooDict.founded_date := Some "2024-05-17";
     ZooDict.animals :=
       Some [Animal.to_dict eagle; Animal.to_dict lion; wingless_record];
     ZooDict.employees := Some [Employee.to_dict keeper] |}.

Definition world_with (filename : string) (data : ZooDict.t) : world :=
  {| files := {[ filename := Json data ]}; readonly := ∅; open_handles := [] |}.

(** ** Vocabulary of the further properties *)

(** [key in animal_data], for the keys that the load reads. *)
Definition animal_binds (r : AnimalDict.t) (key : string) : bool :=
  if String.eqb key "type" then present (AnimalDict.type r)
  else if String.eqb key "name" then present (AnimalDict.name r)
  else if String.eqb key "age" then present (AnimalDict.age r)
  else if String.eqb key "species" then present (AnimalDict.species r)
  else if String.eqb key "health" then present (AnimalDict.health r)
  else if String.eqb key "hunger" then present (AnimalDict.hunger r)
  else if String.eqb key "wingspan" then present (AnimalDict.wingspan r)
  else if String.eqb key "fur_color" then present (AnimalDict.fur_color r)
  else if String.eqb key "is_venomous" then present (AnimalDict.is_venomous r)
  else false.

(** [key in employee_data] *)
Definition employee_binds (r : EmployeeDict.t) (key : string) : bool :=
  if String.eqb key "type" then present (EmployeeDict.type r)
  else if String.eqb key "name" then present (EmployeeDict.name r)
  else if String.eqb key "id_number" then present (EmployeeDict.id_number r)
  else if String.eqb key "specialization" then present (EmployeeDict.specialization r)
  else false.

(** [key in data] *)
Definition data_binds (data : ZooDict.t) (key : string) : bool :=
  if String.eqb key "name" then present (ZooDict.name data)
  else if String.eqb key "founded_date" then present (ZooDict.founded_date data)
  else if String.eqb key "animals" then present (ZooDict.animals data)
  else if String.eqb key "employees" then present (ZooDict.employees data)
  else false.

(** The keys that the load looks up in the top-level dictionary, in an
    animal record and in an employee record. *)
Definition data_keys : list string := ["name"; "founded_date"; "animals"; "employees"].
Definition animal_keys : list string :=
  ["type"; "name"; "age"; "species"; "wingspan"; "fur_color"; "is_venomous";
   "health"; "hunger"].
Definition employee_keys : list string := ["type"; "name"; "id_number"; "specialization"].

(** The binding of a key that only the class [tag] writes: kept in a
    record tagged [tag], dropped from any other record. *)
Definition own_slot {A : Type} (tag : string) (r : AnimalDict.t) (slot : option A)
  : option A :=
  match AnimalDict.type r with
  | Some ty => if String.eqb ty tag then slot else None
  | None => None
  end.

(** The record without the keys of the classes it is not tagged with. *)
Definition own_keys_only (r : AnimalDict.t) : AnimalDict.t :=
  {| AnimalDict.type := AnimalDict.type r; AnimalDict.name := AnimalDict.name r;
     AnimalDict.age := AnimalDict.age r; AnimalDict.species := AnimalDict.species r;
     AnimalDict.health := AnimalDict.health r; AnimalDict.hunger := AnimalDict.hunger r;
     AnimalDict.wingspan := own_slot "Bird" r (AnimalDict.wingspan r);
     AnimalDict.fur_color := own_slot "Mammal" r (AnimalDict.fur_color r);
     AnimalDict.is_venomous := own_slot "Reptile" r (AnimalDict.is_venomous r) |}.

(** The document reduced to what a load keeps of it: the records with
    a known tag, each with the keys of its own class. *)
Definition kept_by_load (data : ZooDict.t) : ZooDict.t :=
  {| ZooDict.name := ZooDict.name data;
     ZooDict.founded_date := ZooDict.founded_date data;
     ZooDict.animals :=
       option_map (fun rs => map own_keys_only (List.filter animal_known rs))
                  (ZooDict.animals data);
     ZooDict.employees := option_map (List.filter employee_known) (ZooDict.employees data) |}.

(** The document without the records whose tag names no class. *)
Definition without_unknown (data : ZooDict.t) : ZooDict.t :=
  {| ZooDict.name := ZooDict.name data;
     ZooDict.founded_date := ZooDict.founded_date data;
     ZooDict.animals :=
       option_map (List.filter (fun r => negb (animal_unknown r))) (ZooDict.animals data);
     ZooDict.employees :=
       option_map (List.filter (fun r => negb (employee_unknown r)))
                  (ZooDict.employees data) |}.

(** The document with another value bound to ["employees"]. *)
Definition with_employees (data : ZooDict.t) (es : option (list EmployeeDict.t))
  : ZooDict.t :=
  {| ZooDict.name := ZooDict.name data;
     ZooDict.founded_date := ZooDict.founded_date data;
     ZooDict.animals := ZooDict.animals data;
     ZooDict.employees := es |}.


(** A Bird record that also binds [fur_color]. *)
Definition furry_bird_record : AnimalDict.t :=
  {| AnimalDict.type := Some "Bird"; AnimalDict.name := Some "Eddie";
     AnimalDict.age := Some 5; AnimalDict.species := Some "Eagle";
     AnimalDict.health := Some 100; AnimalDict.hunger := Some 0;
     AnimalDict.wingspan := Some 0x1.0cccccccccccdp+1%float;
     AnimalDict.fur_color := Some "brown"; AnimalDict.is_venomous := None |}.

(** [mixed_data] with [fur_color] bound in the eagle's record. *)
Definition furry_data : ZooDict.t :=
  {| ZooDict.name := Some "Central Zoo";
     ZooDict.founded_date := Some "2024-05-17";
     ZooDict.animals :=
       Some [furry_bird_record; fish_record; Animal.to_dict lion; Animal.to_dict snake];
     ZooDict.employees :=
       Some [janitor_record; Employee.to_dict keeper; Employee.to_dict vet] |}.

Example str_of_int_negative : str_of_int (-5) = "-5".
Proof. reflexivity. Qed.

Example main_list_animals :
  Zoo.list_animals central_zoo = "Eagle Eddie" ++ newline ++ "Lion Leo" ++ newline ++ "Python Sid".
Proof. reflexivity. Qed.

Example main_list_employees :
  Zoo.list_employees central_zoo = "ZooKeeper John" ++ newline ++ "Veterinarian Dr. Smith".
Proof. reflexivity. Qed.

Example main_feed_lion :
  ZooKeeper.feed_animal keeper lion 30
  = (lion, "Zookeeper John fed Leo. Leo has eaten. Hunger level: 0").
Proof. reflexivity. Qed.

Example main_heal_eagle :
  Veterinarian.heal_animal vet eagle = (eagle, "Eddie is already healthy").
Proof. reflexivity. Qed.

Example heal_injured_eagle :
  Veterinarian.heal_animal vet (Animal.set_health eagle 85)
  = (eagle, "Veterinarian Dr. Smith treated Eddie. Health now: 100").
Proof. reflexivity. Qed.

Example main_save_then_load :
  fst (Zoo.load_from_file "2026-11-03" "zoo_state.json"
         (snd (Zoo.save_to_file central_zoo "zoo_state.json" empty_world)))
  = Returns central_zoo.
Proof. vm_compute. reflexivity. Qed.

Example eat_more_than_hunger :
  Animal.eat (Animal.set_hunger (Animal.init "Leo" 8 "Lion" (Animal.Mammal "golden")) 10) 30
  = (Animal.init "Leo" 8 "Lion" (Animal.Mammal "golden"), "Leo has eaten. Hunger level: 0").
Proof. reflexivity. Qed.

Example eat_negative :
  snd (Animal.eat (Animal.init "Leo" 8 "Lion" (Animal.Mammal "golden")) (-7))
  = "Leo has eaten. Hunger level: 7".
Proof. reflexivity. Qed.

Example eddie_to_dict :
  AnimalDict.wingspan (Animal.to_dict (Animal.init "Eddie" 5 "Eagle" (Animal.Bird 0x1.0cccccccccccdp+1%float)))
  = Some 0x1.0cccccccccccdp+1%float.
Proof. reflexivity. Qed.

(** ** Feeding and healing *)

Lemma eat_unfold (a : Animal.t) (food_amount : Z) :
  fst (Animal.eat a food_amount)
  = Animal.set_hunger a (Z.max 0 (Animal.hunger a - food_amount)).
Proof. reflexivity. Qed.

Lemma heal_animal_below (v : Employee.t) (a : Animal.t) :
  Animal.health a < 100 ->
  Veterinarian.heal_animal v a
  = (Animal.set_health a (Z.min 100 (Animal.health a + 20)),
     "Veterinarian " ++ Employee.name v ++ " treated " ++ Animal.name a
     ++ ". Health now: " ++ str_of_int (Z.min 100 (Animal.health a + 20))).
Proof.
  intros Hlt. unfold Veterinarian.heal_animal.
  destruct (Z.ltb_spec (Animal.health a) 100); [reflexivity | lia].
Qed.

Lemma heal_animal_healthy (v : Employee.t) (a : Animal.t) :
  100 <= Animal.health a ->
  Veterinarian.heal_animal v a = (a, Animal.name a ++ " is already healthy").
Proof.
  intros Hge. unfold Veterinarian.heal_animal.
  destruct (Z.ltb_spec (Animal.health a) 100); [lia | reflexivity].
Qed.

Lemma heal_repeatedly_healthy (v : Employee.t) (n : nat) (a : Animal.t) :
  100 <= Animal.health a -> heal_repeatedly v n a = a.
Proof.
  intros Hge. induction n as [|n IH]; simpl; [reflexivity|].
  rewrite heal_animal_healthy by assumption. exact IH.
Qed.

(** C2. For every animal and every integer [food_amount], negative or
    larger than the current hunger included, [eat] sets the hunger to
    [max(0, hunger - food_amount)], which is never below 0, and returns
    the status string that reports the new hunger value. *)
Theorem eat_floors_hunger_at_zero (a : Animal.t) (food_amount : Z) :
  let new_hunger := Z.max 0 (Animal.hunger a - food_amount) in
  Animal.hunger (fst (Animal.eat a food_amount)) = new_hunger
  /\ 0 <= Animal.hunger (fst (Animal.eat a food_amount))
  /\ snd (Animal.eat a food_amount)
     = Animal.name a ++ " has eaten. Hunger level: " ++ str_of_int new_hunger.
Proof.
  cbv zeta. rewrite eat_unfold. simpl. repeat split. lia.
Qed.

(** C3. [heal_animal] on an animal with health below 100 sets the health
    to [min(health + 20, 100)] and reports the new value; on an animal
    with health 100 it changes nothing and returns the already-healthy
    status, however often it is repeated; the health after the call
    never exceeds 100 unless it did before, in which case it is
    unchanged. *)
Theorem heal_animal_caps_health_at_100 (v : Employee.t) (a : Animal.t) :
  (Animal.health a < 100 ->
     Animal.health (fst (Veterinarian.heal_animal v a)) = Z.min (Animal.health a + 20) 100
     /\ snd (Veterinarian.heal_animal v a)
        = "Veterinarian " ++ Employee.name v ++ " treated " ++ Animal.name a
          ++ ". Health now: " ++ str_of_int (Z.min (Animal.health a + 20) 100))
  /\ (Animal.health a = 100 ->
        Veterinarian.heal_animal v a = (a, Animal.name a ++ " is already healthy")
        /\ forall n, heal_repeatedly v n a = a)
  /\ (Animal.health a <= 100 -> Animal.health (fst (Veterinarian.heal_animal v a)) <= 100)
  /\ (100 < Animal.health a -> fst (Veterinarian.heal_animal v a) = a).
Proof.
  repeat split.
  - rewrite heal_animal_below by assumption. simpl. apply Z.min_comm.
  - rewrite heal_animal_below by assumption. simpl. now rewrite Z.min_comm.
  - apply heal_animal_healthy. lia.
  - intros n. apply heal_repeatedly_healthy. lia.
  - intros Hle. destruct (Z.lt_ge_cases (Animal.health a) 100).
    + rewrite heal_animal_below by assumption. simpl. lia.
    + rewrite heal_animal_healthy by assumption. simpl. lia.
  - intros Hgt. rewrite heal_animal_healthy by lia. reflexivity.
Qed.

Lemma heal_animal_caps_health_at_100_witness :
  Animal.health (fst (Veterinarian.heal_animal vet (Animal.set_health eagle 85))) = 100
  /\ Veterinarian.heal_animal vet eagle = (eagle, "Eddie is already healthy")
  /\ Animal.health (fst (Veterinarian.heal_animal vet (Animal.set_health eagle 30))) <= 100.
Proof.
  split; [|split].
  - apply (proj1 (heal_animal_caps_health_at_100 vet (Animal.set_health eagle 85))).
    simpl. lia.
  - apply (proj1 (proj2 (heal_animal_caps_health_at_100 vet eagle))). reflexivity.
  - apply (proj1 (proj2 (proj2 (heal_animal_caps_health_at_100 vet (Animal.set_health eagle 30))))).
    simpl. lia.
Defined.

(** C8. [eat] changes the hunger of its receiver and nothing else,
    [heal_animal] changes the health of its target and nothing else, and
    [feed_animal] does to the animal exactly what [eat] does, wrapping
    the status string of [eat] without a check of its own. *)
Theorem eat_and_heal_frame (k v : Employee.t) (a : Animal.t) (food_amount : Z) :
  let fed := fst (Animal.eat a food_amount) in
  let healed := fst (Veterinarian.heal_animal v a) in
  (Animal.name fed = Animal.name a /\ Animal.age fed = Animal.age a
   /\ Animal.species fed = Animal.species a /\ Animal.cls fed = Animal.cls a
   /\ Animal.health fed = Animal.health a
   /\ fed = Animal.set_hunger a (Animal.hunger fed))
  /\ (Animal.name healed = Animal.name a /\ Animal.age healed = Animal.age a
      /\ Animal.species healed = Animal.species a /\ Animal.cls healed = Animal.cls a
      /\ Animal.hunger healed = Animal.hunger a
      /\ healed = Animal.set_health a (Animal.health healed))
  /\ fst (ZooKeeper.feed_animal k a food_amount) = fed
  /\ snd (ZooKeeper.feed_animal k a food_amount)
     = "Zookeeper " ++ Employee.name k ++ " fed " ++ Animal.name a ++ ". "
       ++ snd (Animal.eat a food_amount).
Proof.
  cbv zeta. split; [|split; [|split]].
  - rewrite eat_unfold. simpl. repeat split.
  - unfold Veterinarian.heal_animal.
    destruct (Animal.health a <? 100)%Z; simpl; repeat split.
    destruct a; reflexivity.
  - reflexivity.
  - reflexivity.
Qed.

(** ** Listings *)

Lemma append_assoc (s1 s2 s3 : string) : (s1 ++ s2) ++ s3 = s1 ++ (s2 ++ s3).
Proof.
  induction s1 as [|c s1 IH]; [reflexivity|].
  change (String c ((s1 ++ s2) ++ s3) = String c (s1 ++ (s2 ++ s3))).
  now rewrite IH.
Qed.

Lemma join_snoc (sep : string) (lines : list string) (line : string) :
  join sep (lines ++ [line])
  = match lines with
    | [] => line
    | _ :: _ => join sep lines ++ sep ++ line
    end.
Proof.
  unfold join. induction lines as [|l1 [|l2 rest] IH]; simpl in *.
  - reflexivity.
  - reflexivity.
  - rewrite IH. now rewrite !append_assoc.
Qed.

Lemma perform_all_animals (calls : list call) (zoo : Zoo.t) :
  Zoo.animals (perform_all zoo calls) = (Zoo.animals zoo ++ added_animals calls)%list.
Proof.
  unfold perform_all. revert zoo.
  induction calls as [|[a|e] rest IH]; intros zoo; simpl.
  - now rewrite app_nil_r.
  - rewrite IH. simpl. now rewrite <- app_assoc.
  - rewrite IH. reflexivity.
Qed.

Lemma perform_all_employees (calls : list call) (zoo : Zoo.t) :
  Zoo.employees (perform_all zoo calls) = (Zoo.employees zoo ++ added_employees calls)%list.
Proof.
  unfold perform_all. revert zoo.
  induction calls as [|[a|e] rest IH]; intros zoo; simpl.
  - now rewrite app_nil_r.
  - rewrite IH. reflexivity.
  - rewrite IH. simpl. now rewrite <- app_assoc.
Qed.

(** C7. After any sequence of [add_animal] and [add_employee] calls the
    collections hold the added objects after the earlier ones, in call
    order; [list_animals] is the newline-joined "species name" lines,
    [list_employees] the newline-joined "class name" lines and
    [animal_sounds] the newline-joined [make_sound] results, each in
    that order and whatever the classes are; one more [add_animal] or
    [add_employee] puts its line last. *)
Theorem listings_follow_insertion_order
    (zoo : Zoo.t) (calls : list call) (a : Animal.t) (e : Employee.t) :
  let zoo' := perform_all zoo calls in
  Zoo.animals zoo' = (Zoo.animals zoo ++ added_animals calls)%list
  /\ Zoo.employees zoo' = (Zoo.employees zoo ++ added_employees calls)%list
  /\ Zoo.list_animals zoo'
     = join newline (map animal_line (Zoo.animals zoo ++ added_animals calls)%list)
  /\ Zoo.list_employees zoo'
     = join newline (map employee_line (Zoo.employees zoo ++ added_employees calls)%list)
  /\ Zoo.animal_sounds zoo'
     = join newline (map Animal.make_sound (Zoo.animals zoo ++ added_animals calls)%list)
  /\ Zoo.animals (Zoo.add_animal zoo a) = (Zoo.animals zoo ++ [a])%list
  /\ Zoo.employees (Zoo.add_employee zoo e) = (Zoo.employees zoo ++ [e])%list
  /\ Zoo.list_animals (Zoo.add_animal zoo a)
     = match Zoo.animals zoo with
       | [] => animal_line a
       | _ :: _ => Zoo.list_animals zoo ++ newline ++ animal_line a
       end
  /\ Zoo.list_employees (Zoo.add_employee zoo e)
     = match Zoo.employees zoo with
       | [] => employee_line e
       | _ :: _ => Zoo.list_employees zoo ++ newline ++ employee_line e
       end.
Proof.
  cbv zeta. unfold Zoo.list_animals, Zoo.list_employees, Zoo.animal_sounds.
  rewrite perform_all_animals, perform_all_employees.
  repeat split.
  - simpl. rewrite map_app. simpl. rewrite join_snoc.
    destruct (Zoo.animals zoo); reflexivity.
  - simpl. rewrite map_app. simpl. rewrite join_snoc.
    destruct (Zoo.employees zoo); reflexivity.
Qed.

(** ** Save followed by load *)

Lemma release_head (filename : string) (handles : list string) :
  release filename (filename :: handles) = handles.
Proof. simpl. now rewrite String.eqb_refl. Qed.

Lemma construct_animal_to_dict (a : Animal.t) :
  Zoo.construct_animal (Animal.to_dict a)
  = Returns (Some (Animal.init (Animal.name a) (Animal.age a) (Animal.species a) (Animal.cls a))).
Proof. destruct a as [n g s h k [w|c|v]]; reflexivity. Qed.

Lemma load_animal_to_dict (zoo : Zoo.t) (a : Animal.t) :
  Zoo.load_animal zoo (Animal.to_dict a) = Returns (Zoo.add_animal zoo a).
Proof.
  unfold Zoo.load_animal. rewrite construct_animal_to_dict.
  destruct a as [n g s h k [w|c|v]]; reflexivity.
Qed.

Lemma load_animals_to_dict (l : list Animal.t) (zoo : Zoo.t) :
  Zoo.load_animals zoo (map Animal.to_dict l)
  = Returns {| Zoo.name := Zoo.name zoo; Zoo.animals := Zoo.animals zoo ++ l;
               Zoo.employees := Zoo.employees zoo;
               Zoo.founded_date := Zoo.founded_date zoo |}.
Proof.
  revert zoo. induction l as [|a l IH]; intros zoo.
  - simpl. rewrite app_nil_r. now destruct zoo.
  - change (Zoo.load_animals zoo (map Animal.to_dict (a :: l)))
      with (zoo' ← Zoo.load_animal zoo (Animal.to_dict a);
            Zoo.load_animals zoo' (map Animal.to_dict l)).
    rewrite load_animal_to_dict. simpl. rewrite IH. simpl.
    now rewrite <- app_assoc.
Qed.

Lemma load_employee_to_dict (zoo : Zoo.t) (e : Employee.t) :
  Zoo.load_employee zoo (Employee.to_dict e) = Returns (Zoo.add_employee zoo e).
Proof. destruct e as [n i s [|]]; reflexivity. Qed.

Lemma load_employees_to_dict (l : list Employee.t) (zoo : Zoo.t) :
  Zoo.load_employees zoo (map Employee.to_dict l)
  = Returns {| Zoo.name := Zoo.name zoo; Zoo.animals := Zoo.animals zoo;
               Zoo.employees := Zoo.employees zoo ++ l;
               Zoo.founded_date := Zoo.founded_date zoo |}.
Proof.
  revert zoo. induction l as [|e l IH]; intros zoo.
  - simpl. rewrite app_nil_r. now destruct zoo.
  - change (Zoo.load_employees zoo (map Employee.to_dict (e :: l)))
      with (zoo' ← Zoo.load_employee zoo (Employee.to_dict e);
            Zoo.load_employees zoo' (map Employee.to_dict l)).
    rewrite load_employee_to_dict. simpl. rewrite IH. simpl.
    now rewrite <- app_assoc.
Qed.

Lemma from_data_to_data (today : string) (zoo : Zoo.t) :
  Zoo.from_data today (Zoo.to_data zoo) = Returns zoo.
Proof.
  unfold Zoo.from_data, Zoo.to_data. simpl.
  rewrite load_animals_to_dict. simpl.
  rewrite load_employees_to_dict. simpl.
  now destruct zoo.
Qed.

(** What [load_from_file] returns when the file holds a document. *)
Lemma load_from_file_json (today filename : string) (w : world) (data : ZooDict.t) :
  files w !! filename = Some (Json data) ->
  fst (Zoo.load_from_file today filename w) = Zoo.from_data today data.
Proof.
  intros Hfile. unfold Zoo.load_from_file, open_r. rewrite Hfile. reflexivity.
Qed.

Lemma save_to_file_written (zoo : Zoo.t) (filename : string) (w w' : world) :
  Zoo.save_to_file zoo filename w = (Returns tt, w') ->
  files w' !! filename = Some (Json (Zoo.to_data zoo)).
Proof.
  unfold Zoo.save_to_file, open_w.
  destruct (decide (filename ∈ readonly w)); intros Hsave; [discriminate|].
  injection Hsave as <-. simpl. apply lookup_insert_eq.
Qed.

(** C1. Whatever animals and employees a zoo holds (so in particular
    with every health in [0,100] and every hunger at least 0), loading
    the file that [save_to_file] wrote returns a zoo equal to the saved
    one: the same name, the founded date that was saved and not the date
    of the load, and the same animals and employees, class by class and
    field by field, in the same order. *)
Theorem load_after_save_restores_zoo
    (zoo : Zoo.t) (today filename : string) (w w' : world) :
  Zoo.save_to_file zoo filename w = (Returns tt, w') ->
  fst (Zoo.load_from_file today filename w') = Returns zoo.
Proof.
  intros Hsave. apply save_to_file_written in Hsave.
  rewrite (load_from_file_json _ _ _ _ Hsave). apply from_data_to_data.
Qed.

Lemma load_after_save_restores_zoo_witness :
  fst (Zoo.load_from_file "2026-11-03" "zoo_state.json"
         (snd (Zoo.save_to_file central_zoo "zoo_state.json" empty_world)))
  = Returns central_zoo.
Proof.
  apply (load_after_save_restores_zoo central_zoo "2026-11-03" "zoo_state.json" empty_world).
  vm_compute. reflexivity.
Defined.

(** ** Loading an arbitrary document *)

(** A lookup of an absent key ended the iteration. *)
Ltac raised_key_error := split; [eexists; reflexivity | reflexivity].

(** The record was complete: name the constructed object. *)
Ltac constructed :=
  split; [reflexivity|]; left; split; [reflexivity|];
  eexists; split; [reflexivity|]; repeat split.

(** No branch of the chain was taken. *)
Ltac skipped := split; [reflexivity|]; right; split; reflexivity.

(** Goes through the lookups of one branch in the order of the source. *)
Ltac lookups slots :=
  lazymatch slots with
  | (?rest, ?slot) => lookups rest; destruct slot; cbn; try raised_key_error
  | tt => idtac
  end.

(** The outcome of one iteration of the animal loop, by the shape of
    the record. *)
Lemma load_animal_spec (zoo : Zoo.t) (r : AnimalDict.t) :
  match Zoo.load_animal zoo r with
  | Returns zoo' =>
      loadable_animal r = true
      /\ ((animal_known r = true
           /\ exists a, zoo' = Zoo.add_animal zoo a /\ animal_matches a r)
          \/ (animal_known r = false /\ zoo' = zoo))
  | Raises e => (exists key, e = KeyError key) /\ loadable_animal r = false
  end.
Proof.
  destruct r as [ty n g s h k w c v]. unfold Zoo.load_animal, Zoo.construct_animal.
  destruct ty as [ty|]; [|raised_key_error].
  cbn [AnimalDict.type AnimalDict.name AnimalDict.age AnimalDict.species
       AnimalDict.health AnimalDict.hunger AnimalDict.wingspan
       AnimalDict.fur_color AnimalDict.is_venomous getitem mbind result_bind].
  unfold loadable_animal, animal_known, animal_unknown, known_tag, unknown_tag,
    animal_tags, complete_animal, own_field_present.
  cbn [AnimalDict.type AnimalDict.name AnimalDict.age AnimalDict.species
       AnimalDict.health AnimalDict.hunger AnimalDict.wingspan
       AnimalDict.fur_color AnimalDict.is_venomous existsb].
  destruct (String.eqb ty "Bird") eqn:EB.
  { apply String.eqb_eq in EB. subst ty. lookups (tt, n, g, s, w, h, k). constructed. }
  destruct (String.eqb ty "Mammal") eqn:EM.
  { apply String.eqb_eq in EM. subst ty. lookups (tt, n, g, s, c, h, k). constructed. }
  destruct (String.eqb ty "Reptile") eqn:ER.
  { apply String.eqb_eq in ER. subst ty. lookups (tt, n, g, s, v, h, k). constructed. }
  cbn. skipped.
Qed.

Lemma load_employee_spec (zoo : Zoo.t) (r : EmployeeDict.t) :
  match Zoo.load_employee zoo r with
  | Returns zoo' =>
      loadable_employee r = true
      /\ ((employee_known r = true
           /\ exists e, zoo' = Zoo.add_employee zoo e /\ employee_matches e r)
          \/ (employee_known r = false /\ zoo' = zoo))
  | Raises e => (exists key, e = KeyError key) /\ loadable_employee r = false
  end.
Proof.
  destruct r as [ty n i s]. unfold Zoo.load_employee, Zoo.construct_employee.
  destruct ty as [ty|]; [|raised_key_error].
  cbn [EmployeeDict.type EmployeeDict.name EmployeeDict.id_number
       EmployeeDict.specialization getitem mbind result_bind].
  unfold loadable_employee, employee_known, employee_unknown, known_tag, unknown_tag,
    employee_tags, complete_employee.
  cbn [EmployeeDict.type EmployeeDict.name EmployeeDict.id_number
       EmployeeDict.specialization existsb].
  destruct (String.eqb ty "ZooKeeper") eqn:EK.
  { apply String.eqb_eq in EK. subst ty. lookups (tt, n, i, s). constructed. }
  destruct (String.eqb ty "Veterinarian") eqn:EV.
  { apply String.eqb_eq in EV. subst ty. lookups (tt, n, i, s). constructed. }
  cbn. skipped.
Qed.

(** The outcome of the whole animal loop. *)
Lemma load_animals_spec (rs : list AnimalDict.t) (zoo : Zoo.t) :
  match Zoo.load_animals zoo rs with
  | Returns zoo' =>
      Forall (fun r => loadable_animal r = true) rs
      /\ Zoo.name zoo' = Zoo.name zoo
      /\ Zoo.employees zoo' = Zoo.employees zoo
      /\ Zoo.founded_date zoo' = Zoo.founded_date zoo
      /\ exists l, Zoo.animals zoo' = (Zoo.animals zoo ++ l)%list
                   /\ Forall2 animal_matches l (List.filter animal_known rs)
  | Raises e =>
      (exists key, e = KeyError key)
      /\ ~ Forall (fun r => loadable_animal r = true) rs
  end.
Proof.
  revert zoo. induction rs as [|r rs IH]; intros zoo.
  - simpl. repeat split; [constructor|]. exists []. split; [now rewrite app_nil_r | constructor].
  - cbn [Zoo.load_animals]. pose proof (load_animal_spec zoo r) as Hr.
    destruct (Zoo.load_animal zoo r) as [z1|e]; cbn [mbind result_bind].
    + destruct Hr as [Hload Hr]. specialize (IH z1).
      destruct (Zoo.load_animals z1 rs) as [z2|e2].
      * destruct IH as (Hall & Hn & He & Hf & l & Hl & Hm).
        destruct Hr as [(Hk & a & -> & Ha) | (Hk & ->)].
        -- repeat split; try assumption; [now constructor|].
           exists (a :: l). split.
           ++ rewrite Hl. simpl. now rewrite <- app_assoc.
           ++ simpl. rewrite Hk. now constructor.
        -- repeat split; try assumption; [now constructor|].
           exists l. split; [assumption|]. simpl. now rewrite Hk.
      * destruct IH as [Hkey Hnot]. split; [assumption|].
        intros Hall. apply Hnot. now inversion Hall.
    + destruct Hr as [Hkey Hbad]. split; [assumption|].
      intros Hall. inversion Hall as [|? ? Hhd Htl]; subst. congruence.
Qed.

(** The outcome of the whole employee loop. *)
Lemma load_employees_spec (rs : list EmployeeDict.t) (zoo : Zoo.t) :
  match Zoo.load_employees zoo rs with
  | Returns zoo' =>
      Forall (fun r => loadable_employee r = true) rs
      /\ Zoo.name zoo' = Zoo.name zoo
      /\ Zoo.animals zoo' = Zoo.animals zoo
      /\ Zoo.founded_date zoo' = Zoo.founded_date zoo
      /\ exists l, Zoo.employees zoo' = (Zoo.employees zoo ++ l)%list
                   /\ Forall2 employee_matches l (List.filter employee_known rs)
  | Raises e =>
      (exists key, e = KeyError key)
      /\ ~ Forall (fun r => loadable_employee r = true) rs
  end.
Proof.
  revert zoo. induction rs as [|r rs IH]; intros zoo.
  - simpl. repeat split; [constructor|]. exists []. split; [now rewrite app_nil_r | constructor].
  - cbn [Zoo.load_employees]. pose proof (load_employee_spec zoo r) as Hr.
    destruct (Zoo.load_employee zoo r) as [z1|e]; cbn [mbind result_bind].
    + destruct Hr as [Hload Hr]. specialize (IH z1).
      destruct (Zoo.load_employees z1 rs) as [z2|e2].
      * destruct IH as (Hall & Hn & Ha & Hf & l & Hl & Hm).
        destruct Hr as [(Hk & x & -> & Hx) | (Hk & ->)].
        -- repeat split; try assumption; [now constructor|].
           exists (x :: l). split.
           ++ rewrite Hl. simpl. now rewrite <- app_assoc.
           ++ simpl. rewrite Hk. now constructor.
        -- repeat split; try assumption; [now constructor|].
           exists l. split; [assumption|]. simpl. now rewrite Hk.
      * destruct IH as [Hkey Hnot]. split; [assumption|].
        intros Hall. apply Hnot. now inversion Hall.
    + destruct Hr as [Hkey Hbad]. split; [assumption|].
      intros Hall. inversion Hall as [|? ? Hhd Htl]; subst. congruence.
Qed.

(** The outcome of [from_data]: what a returned zoo holds, and why an
    exception was raised. *)
Lemma from_data_spec (today : string) (data : ZooDict.t) :
  match Zoo.from_data today data with
  | Returns zoo =>
      exists rs es,
        ZooDict.name data = Some (Zoo.name zoo)
        /\ ZooDict.founded_date data = Some (Zoo.founded_date zoo)
        /\ ZooDict.animals data = Some rs
        /\ ZooDict.employees data = Some es
        /\ Forall (fun r => loadable_animal r = true) rs
        /\ Forall (fun r => loadable_employee r = true) es
        /\ Forall2 animal_matches (Zoo.animals zoo) (List.filter animal_known rs)
        /\ Forall2 employee_matches (Zoo.employees zoo) (List.filter employee_known es)
  | Raises e =>
      (exists key, e = KeyError key)
      /\ (ZooDict.name data = None
          \/ ZooDict.founded_date data = None
          \/ ZooDict.animals data = None
          \/ ZooDict.employees data = None
          \/ (exists rs, ZooDict.animals data = Some rs
                         /\ ~ Forall (fun r => loadable_animal r = true) rs)
          \/ (exists es, ZooDict.employees data = Some es
                         /\ ~ Forall (fun r => loadable_employee r = true) es))
  end.
Proof.
  destruct data as [n f rs es]. unfold Zoo.from_data.
  cbn [ZooDict.name ZooDict.founded_date ZooDict.animals ZooDict.employees].
  destruct n as [n|]; [|simpl; split; [eexists; reflexivity | tauto]].
  destruct f as [f|]; [|simpl; split; [eexists; reflexivity | tauto]].
  destruct rs as [rs|]; [|simpl; split; [eexists; reflexivity | tauto]].
  cbn [getitem mbind result_bind].
  pose proof (load_animals_spec rs (Zoo.set_founded_date (Zoo.init today n) f)) as Ha.
  destruct (Zoo.load_animals _ rs) as [z1|e].
  - destruct Ha as (Hall & Hn & He & Hf & l & Hl & Hm).
    destruct es as [es|]; [|simpl; split; [eexists; reflexivity | tauto]].
    cbn [getitem mbind result_bind].
    pose proof (load_employees_spec es z1) as Hb.
    destruct (Zoo.load_employees z1 es) as [z2|e].
    + destruct Hb as (Hall' & Hn' & Ha' & Hf' & l' & Hl' & Hm').
      exists rs, es. rewrite Hn', Hf', Ha', Hl', Hn, Hf, He, Hl. simpl.
      repeat split; assumption.
    + destruct Hb as [Hkey Hnot]. split; [assumption|].
      do 5 right. exists es. split; [reflexivity | assumption].
  - destruct Ha as [Hkey Hnot]. split; [assumption|].
    do 4 right. left. exists rs. split; [reflexivity | assumption].
Qed.

Example load_mixed_data :
  fst (Zoo.load_from_file "2026-11-03" "zoo_state.json" (world_with "zoo_state.json" mixed_data))
  = Returns central_zoo.
Proof. vm_compute. reflexivity. Qed.

Example load_malformed_data :
  fst (Zoo.load_from_file "2026-11-03" "zoo_state.json" (world_with "zoo_state.json" malformed_data))
  = Raises (KeyError "wingspan").
Proof. vm_compute. reflexivity. Qed.

Example load_missing_file :
  Zoo.load_from_file "2026-11-03" "zoo_state.json" empty_world
  = (Raises (FileNotFoundError "zoo_state.json"), empty_world).
Proof. vm_compute. reflexivity. Qed.

(** ** Unknown tags and missing fields *)

Lemma known_unknown_tag (tags : list string) (type : option string) :
  unknown_tag tags type = true -> known_tag tags type = false.
Proof.
  destruct type as [ty|]; simpl; [|discriminate].
  now destruct (existsb (String.eqb ty) tags).
Qed.

Lemma loadable_animal_unknown (r : AnimalDict.t) :
  loadable_animal r = true -> animal_unknown r = negb (animal_known r).
Proof.
  unfold loadable_animal, animal_unknown, animal_known.
  destruct (AnimalDict.type r) as [ty|]; simpl; [|discriminate].
  now destruct (existsb (String.eqb ty) animal_tags).
Qed.

Lemma loadable_employee_unknown (r : EmployeeDict.t) :
  loadable_employee r = true -> employee_unknown r = negb (employee_known r).
Proof.
  unfold loadable_employee, employee_unknown, employee_known.
  destruct (EmployeeDict.type r) as [ty|]; simpl; [|discriminate].
  now destruct (existsb (String.eqb ty) employee_tags).
Qed.

(** When a tag decides between two ways, the two counts add up. *)
Lemma filter_split_length {A : Type} (known unknown : A -> bool) (ok : A -> Prop)
    (rs : list A) :
  (forall r, ok r -> unknown r = negb (known r)) ->
  Forall ok rs ->
  (length (List.filter known rs) + length (List.filter unknown rs) = length rs)%nat.
Proof.
  intros Hneg Hall. induction Hall as [|r rs Hr _ IH]; simpl; [reflexivity|].
  rewrite (Hneg r Hr). destruct (known r); simpl; lia.
Qed.

Lemma malformed_animal_not_loadable (r : AnimalDict.t) :
  malformed_animal r = true -> loadable_animal r = false.
Proof.
  unfold malformed_animal, loadable_animal, animal_unknown, animal_known.
  unfold known_tag, unknown_tag.
  destruct (AnimalDict.type r) as [ty|]; [|discriminate].
  destruct (existsb (String.eqb ty) animal_tags), (complete_animal r); simpl; congruence.
Qed.

Lemma malformed_employee_not_loadable (r : EmployeeDict.t) :
  malformed_employee r = true -> loadable_employee r = false.
Proof.
  unfold malformed_employee, loadable_employee, employee_unknown, employee_known.
  unfold known_tag, unknown_tag.
  destruct (EmployeeDict.type r) as [ty|]; [|discriminate].
  destruct (existsb (String.eqb ty) employee_tags), (complete_employee r); simpl; congruence.
Qed.

Lemma Exists_not_Forall {A : Type} (bad good : A -> bool) (rs : list A) :
  (forall r, bad r = true -> good r = false) ->
  Exists (fun r => bad r = true) rs ->
  ~ Forall (fun r => good r = true) rs.
Proof.
  intros Hbad Hex Hall. induction Hex as [r rs Hr | r rs _ IH].
  - inversion Hall as [|? ? Hg _]; subst. rewrite (Hbad r Hr) in Hg. discriminate.
  - inversion Hall; subst. now apply IH.
Qed.

(** C5. When a document binds its four top-level keys and each of its
    records either carries a tag outside the known ones or is complete
    for its known tag, the load returns a zoo: its animals are, in
    document order, exactly the animals constructed from the records
    with a known tag, likewise its employees, nothing stands in for a
    skipped record, and each collection has as many elements as the
    document has records less the unrecognized ones. *)
Theorem unknown_tags_are_skipped
    (today filename : string) (w : world) (data : ZooDict.t)
    (n f : string) (rs : list AnimalDict.t) (es : list EmployeeDict.t) :
  files w !! filename = Some (Json data) ->
  ZooDict.name data = Some n ->
  ZooDict.founded_date data = Some f ->
  ZooDict.animals data = Some rs ->
  ZooDict.employees data = Some es ->
  Forall (fun r => animal_unknown r = true
                   \/ (animal_known r = true /\ complete_animal r = true)) rs ->
  Forall (fun r => employee_unknown r = true
                   \/ (employee_known r = true /\ complete_employee r = true)) es ->
  exists zoo,
    fst (Zoo.load_from_file today filename w) = Returns zoo
    /\ Zoo.name zoo = n
    /\ Zoo.founded_date zoo = f
    /\ Forall2 animal_matches (Zoo.animals zoo) (List.filter animal_known rs)
    /\ Forall2 employee_matches (Zoo.employees zoo) (List.filter employee_known es)
    /\ length (Zoo.animals zoo)
       = (length rs - length (List.filter animal_unknown rs))%nat
    /\ length (Zoo.employees zoo)
       = (length es - length (List.filter employee_unknown es))%nat.
Proof.
  intros Hfile Hn Hf Hrs Hes Hanimals Hemployees.
  assert (Hla : Forall (fun r => loadable_animal r = true) rs).
  { eapply Forall_impl; [exact Hanimals|].
    intros r [Hu | [Hk Hc]]; unfold loadable_animal; rewrite ?Hu, ?Hk, ?Hc; simpl;
      [reflexivity | apply orb_true_r]. }
  assert (Hle : Forall (fun r => loadable_employee r = true) es).
  { eapply Forall_impl; [exact Hemployees|].
    intros r [Hu | [Hk Hc]]; unfold loadable_employee; rewrite ?Hu, ?Hk, ?Hc; simpl;
      [reflexivity | apply orb_true_r]. }
  rewrite (load_from_file_json _ _ _ _ Hfile).
  pose proof (from_data_spec today data) as Hspec.
  destruct (Zoo.from_data today data) as [zoo|e].
  - destruct Hspec as (rs' & es' & Hn' & Hf' & Hrs' & Hes' & _ & _ & Hma & Hme).
    assert (rs' = rs) by congruence. assert (es' = es) by congruence. subst rs' es'.
    exists zoo. repeat split; try congruence; try assumption.
    + rewrite (Forall2_length _ _ _ Hma).
      pose proof (filter_split_length animal_known animal_unknown _ rs
                    loadable_animal_unknown Hla). lia.
    + rewrite (Forall2_length _ _ _ Hme).
      pose proof (filter_split_length employee_known employee_unknown _ es
                    loadable_employee_unknown Hle). lia.
  - exfalso. destruct Hspec as [_ Hwhy].
    destruct Hwhy as [H|[H|[H|[H|[(rs' & H & Hnot)|(es' & H & Hnot)]]]]]; congruence.
Qed.

Lemma unknown_tags_are_skipped_witness :
  exists zoo,
    fst (Zoo.load_from_file "2026-11-03" "zoo_state.json"
           (world_with "zoo_state.json" mixed_data)) = Returns zoo
    /\ Zoo.name zoo = "Central Zoo"
    /\ Zoo.founded_date zoo = "2024-05-17"
    /\ Forall2 animal_matches (Zoo.animals zoo)
         (List.filter animal_known
            [Animal.to_dict eagle; fish_record; Animal.to_dict lion; Animal.to_dict snake])
    /\ Forall2 employee_matches (Zoo.employees zoo)
         (List.filter employee_known
            [janitor_record; Employee.to_dict keeper; Employee.to_dict vet])
    /\ length (Zoo.animals zoo) = (4 - 1)%nat
    /\ length (Zoo.employees zoo) = (3 - 1)%nat.
Proof.
  apply (unknown_tags_are_skipped "2026-11-03" "zoo_state.json"
           (world_with "zoo_state.json" mixed_data) mixed_data
           "Central Zoo" "2024-05-17"
           [Animal.to_dict eagle; fish_record; Animal.to_dict lion; Animal.to_dict snake]
           [janitor_record; Employee.to_dict keeper; Employee.to_dict vet]).
  - vm_compute. reflexivity.
  - reflexivity.
  - reflexivity.
  - reflexivity.
  - reflexivity.
  - repeat (constructor;
            [first [left; vm_compute; reflexivity
                   | right; split; vm_compute; reflexivity]|]).
    constructor.
  - repeat (constructor;
            [first [left; vm_compute; reflexivity
                   | right; split; vm_compute; reflexivity]|]).
    constructor.
Defined.

(** C6. When a document holds a record whose tag names a known class
    and that lacks a key that class requires, among the animals or among
    the employees, the load raises a [KeyError] and returns no zoo. A
    load that returns, in turn, has constructed an animal or employee
    from every record with a known tag: only records whose tag names no
    class are left out. *)
Theorem missing_field_fails_load
    (today filename : string) (w : world) (data : ZooDict.t) :
  files w !! filename = Some (Json data) ->
  (((exists rs, ZooDict.animals data = Some rs
                /\ Exists (fun r => malformed_animal r = true) rs)
    \/ (exists es, ZooDict.employees data = Some es
                   /\ Exists (fun r => malformed_employee r = true) es)) ->
   exists key, fst (Zoo.load_from_file today filename w) = Raises (KeyError key))
  /\ (forall zoo, fst (Zoo.load_from_file today filename w) = Returns zoo ->
      exists rs es,
        ZooDict.animals data = Some rs /\ ZooDict.employees data = Some es
        /\ Forall2 animal_matches (Zoo.animals zoo) (List.filter animal_known rs)
        /\ Forall2 employee_matches (Zoo.employees zoo) (List.filter employee_known es)).
Proof.
  intros Hfile. rewrite (load_from_file_json _ _ _ _ Hfile).
  pose proof (from_data_spec today data) as Hspec.
  destruct (Zoo.from_data today data) as [zoo|e].
  - destruct Hspec as (rs & es & _ & _ & Hrs & Hes & Hla & Hle & Hma & Hme). split.
    + intros [(rs' & Hrs' & Hex) | (es' & Hes' & Hex)]; exfalso.
      * assert (rs' = rs) by congruence. subst rs'.
        exact (Exists_not_Forall _ _ _ malformed_animal_not_loadable Hex Hla).
      * assert (es' = es) by congruence. subst es'.
        exact (Exists_not_Forall _ _ _ malformed_employee_not_loadable Hex Hle).
    + intros zoo' Hzoo. injection Hzoo as <-. exists rs, es. repeat split; assumption.
  - destruct Hspec as [[key ->] _]. split.
    + intros _. exists key. reflexivity.
    + intros zoo' Hzoo. discriminate.
Qed.

Lemma missing_field_fails_load_witness :
  exists key,
    fst (Zoo.load_from_file "2026-11-03" "zoo_state.json"
           (world_with "zoo_state.json" malformed_data)) = Raises (KeyError key).
Proof.
  refine (proj1 (missing_field_fails_load "2026-11-03" "zoo_state.json"
                   (world_with "zoo_state.json" malformed_data) malformed_data _) _).
  - vm_compute. reflexivity.
  - left. eexists. split; [reflexivity|].
    apply Exists_cons_tl, Exists_cons_tl, Exists_cons_hd. vm_compute. reflexivity.
Defined.

(** ** The bounds on health and hunger *)

Lemma init_valid (name : string) (age : Z) (species : string) (cls : Animal.variant) :
  valid_animal (Animal.init name age species cls).
Proof. unfold valid_animal. simpl. lia. Qed.

Lemma eat_valid (a : Animal.t) (food_amount : Z) :
  valid_animal a -> valid_animal (fst (Animal.eat a food_amount)).
Proof. unfold valid_animal. rewrite eat_unfold. simpl. lia. Qed.

Lemma heal_animal_valid (v : Employee.t) (a : Animal.t) :
  valid_animal a -> valid_animal (fst (Veterinarian.heal_animal v a)).
Proof.
  unfold valid_animal, Veterinarian.heal_animal.
  destruct (Z.ltb_spec (Animal.health a) 100); simpl; lia.
Qed.

Lemma matches_in_range (a : Animal.t) (r : AnimalDict.t) :
  animal_matches a r -> (record_in_range r <-> valid_animal a).
Proof.
  intros (_ & _ & _ & _ & Hh & Hk & _). unfold record_in_range, valid_animal. split.
  - intros [Hhealth Hhunger]. split; [apply Hhealth | apply Hhunger]; assumption.
  - intros [Hhealth Hhunger]. split; intros x Hx; congruence.
Qed.

Lemma matches_all_in_range (l : list Animal.t) (rs : list AnimalDict.t) :
  Forall2 animal_matches l rs -> (Forall record_in_range rs <-> Forall valid_animal l).
Proof.
  induction 1 as [|a r l rs Hm _ IH]; [split; constructor|].
  split; intros Hall; inversion Hall; subst; constructor;
    solve [eapply matches_in_range; eassumption | now apply IH].
Qed.

Lemma filter_known_in_range (rs : list AnimalDict.t) :
  Forall (fun r => animal_known r = true -> record_in_range r) rs
  <-> Forall record_in_range (List.filter animal_known rs).
Proof.
  induction rs as [|r rs IH]; simpl; [split; constructor|].
  destruct (animal_known r) eqn:Hk; split; intros Hall.
  - inversion Hall; subst. constructor; [auto | now apply IH].
  - inversion Hall; subst. constructor; [auto | now apply IH].
  - inversion Hall; subst. now apply IH.
  - constructor; [congruence | now apply IH].
Qed.

(** C4, as it is stated, fails at the load step: the freshly
    constructed Bird is within the bounds, and the iteration of the load
    loop on [overfed_record] leaves in the zoo a Bird with health 150
    and hunger -3. *)
Lemma load_overlay_breaks_bounds :
  exists fresh loaded,
    Zoo.construct_animal overfed_record = Returns (Some fresh)
    /\ valid_animal fresh
    /\ Zoo.load_animal (Zoo.init "2026-11-03" "Central Zoo") overfed_record
       = Returns (Zoo.add_animal (Zoo.init "2026-11-03" "Central Zoo") loaded)
    /\ Animal.health loaded = 150
    /\ Animal.hunger loaded = -3
    /\ ~ valid_animal loaded.
Proof.
  exists eagle, (Animal.set_hunger (Animal.set_health eagle 150) (-3)).
  repeat split; try reflexivity; try (simpl; lia).
  unfold valid_animal. simpl. lia.
Qed.

(** C4, amended. A constructed animal has health 100 and hunger 0;
    [eat], [feed_animal] and [heal_animal] keep an animal within
    [0 <= health <= 100] and [0 <= hunger]; a load copies health and
    hunger from the document unchecked, and the animals of the loaded
    zoo are all within the bounds exactly when every record with a
    known tag binds health and hunger to values within them. *)
Theorem bounds_kept_by_operations_and_in_range_load
    (name species today filename : string) (age food_amount : Z)
    (cls : Animal.variant) (k v : Employee.t) (a : Animal.t)
    (w : world) (data : ZooDict.t) (rs : list AnimalDict.t) (zoo : Zoo.t) :
  (Animal.health (Animal.init name age species cls) = 100
   /\ Animal.hunger (Animal.init name age species cls) = 0
   /\ valid_animal (Animal.init name age species cls))
  /\ (valid_animal a ->
      valid_animal (fst (Animal.eat a food_amount))
      /\ valid_animal (fst (ZooKeeper.feed_animal k a food_amount))
      /\ valid_animal (fst (Veterinarian.heal_animal v a)))
  /\ (files w !! filename = Some (Json data) ->
      ZooDict.animals data = Some rs ->
      fst (Zoo.load_from_file today filename w) = Returns zoo ->
      (Forall valid_animal (Zoo.animals zoo)
       <-> Forall (fun r => animal_known r = true -> record_in_range r) rs)).
Proof.
  split; [|split].
  - repeat split; try reflexivity; apply init_valid.
  - intros Ha. repeat split; try (apply eat_valid; assumption);
      apply heal_animal_valid; assumption.
  - intros Hfile Hrs Hload.
    rewrite (load_from_file_json _ _ _ _ Hfile) in Hload.
    pose proof (from_data_spec today data) as Hspec. rewrite Hload in Hspec.
    destruct Hspec as (rs' & es & _ & _ & Hrs' & _ & _ & _ & Hma & _).
    assert (rs' = rs) by congruence. subst rs'.
    rewrite filter_known_in_range. symmetry. now apply matches_all_in_range.
Qed.

Lemma bounds_kept_by_operations_and_in_range_load_witness :
  (valid_animal (fst (Animal.eat lion 30))
   /\ valid_animal (fst (ZooKeeper.feed_animal keeper lion 30))
   /\ valid_animal (fst (Veterinarian.heal_animal vet lion)))
  /\ Forall valid_animal (Zoo.animals central_zoo).
Proof.
  pose proof (bounds_kept_by_operations_and_in_range_load
                "Leo" "Lion" "2026-11-03" "zoo_state.json" 8 30 (Animal.Mammal "golden")
                keeper vet lion (world_with "zoo_state.json" mixed_data) mixed_data
                [Animal.to_dict eagle; fish_record; Animal.to_dict lion; Animal.to_dict snake]
                central_zoo) as (_ & Hops & Hload).
  split.
  - apply Hops. unfold valid_animal. simpl. lia.
  - apply Hload.
    + vm_compute. reflexivity.
    + reflexivity.
    + vm_compute. reflexivity.
    + repeat (constructor;
              [intros _; split; intros x Hx; vm_compute in Hx;
               first [discriminate | injection Hx as <-; lia] |]).
      constructor.
Defined.

(** ** File handles *)

Lemma load_from_file_closes (today filename : string) (w : world) :
  open_handles (snd (Zoo.load_from_file today filename w)) = open_handles w.
Proof.
  unfold Zoo.load_from_file, open_r.
  destruct (files w !! filename) as [c|]; simpl; [|reflexivity].
  now rewrite String.eqb_refl.
Qed.

Lemma load_from_file_keeps_files (today filename : string) (w : world) :
  files (snd (Zoo.load_from_file today filename w)) = files w.
Proof.
  unfold Zoo.load_from_file, open_r.
  destruct (files w !! filename) as [c|]; reflexivity.
Qed.

(** C9. [load_from_file] leaves the open handles as it found them on
    each of its paths: a missing file, text that is not a document, a
    document whose load raises, a document whose load returns.
    [save_to_file], when [open] succeeds, writes the document and
    returns with the handle it opened still among the open ones. *)
Theorem save_to_file_leaves_handle_open
    (zoo : Zoo.t) (today filename : string) (w : world) :
  open_handles (snd (Zoo.load_from_file today filename w)) = open_handles w
  /\ open_handles (snd (Zoo.save_to_file zoo filename w))
     = if decide (filename ∈ readonly w) then open_handles w
       else filename :: open_handles w.
Proof.
  split; [apply load_from_file_closes|].
  unfold Zoo.save_to_file, open_w.
  destruct (decide (filename ∈ readonly w)); reflexivity.
Qed.

Example save_central_zoo_leaves_handle_open :
  Zoo.save_to_file central_zoo "zoo_state.json" empty_world
  = (Returns tt,
     {| files := {[ "zoo_state.json" := Json (Zoo.to_data central_zoo) ]};
        readonly := ∅;
        open_handles := ["zoo_state.json"] |}).
Proof.
  unfold Zoo.save_to_file, open_w, json_dump, empty_world. simpl.
  rewrite decide_False by set_solver.
  simpl. rewrite insert_insert_eq. reflexivity.
Qed.

(** ** The clock and the loaded zoo *)

Lemma from_data_ignores_today (today1 today2 : string) (data : ZooDict.t) :
  Zoo.from_data today1 data = Zoo.from_data today2 data.
Proof. destruct data as [[n|] [f|] rs es]; reflexivity. Qed.

(** C10. The zoo that a load returns, or the exception it raises, does
    not depend on the date at which the load runs, and two loads of the
    same document, from whatever path and world, at whatever dates, have
    the same outcome; the founded date of a returned zoo is the one the
    document binds. *)
Theorem load_is_determined_by_document
    (today1 today2 filename1 filename2 : string) (w1 w2 : world) (data : ZooDict.t) :
  Zoo.load_from_file today1 filename1 w1 = Zoo.load_from_file today2 filename1 w1
  /\ (files w1 !! filename1 = Some (Json data) ->
      files w2 !! filename2 = Some (Json data) ->
      fst (Zoo.load_from_file today1 filename1 w1)
      = fst (Zoo.load_from_file today2 filename2 w2)
      /\ forall zoo, fst (Zoo.load_from_file today1 filename1 w1) = Returns zoo ->
                     ZooDict.name data = Some (Zoo.name zoo)
                     /\ ZooDict.founded_date data = Some (Zoo.founded_date zoo)).
Proof.
  split.
  - unfold Zoo.load_from_file. destruct (open_r filename1 w1) as [[f w]|e]; [|reflexivity].
    destruct (json_load f) as [d|e]; [|reflexivity].
    simpl. now rewrite (from_data_ignores_today today1 today2).
  - intros H1 H2.
    rewrite (load_from_file_json _ _ _ _ H1), (load_from_file_json _ _ _ _ H2).
    split; [apply from_data_ignores_today|].
    intros zoo Hzoo. pose proof (from_data_spec today1 data) as Hspec.
    rewrite Hzoo in Hspec. destruct Hspec as (rs & es & Hn & Hf & _).
    split; assumption.
Qed.

Lemma load_is_determined_by_document_witness :
  fst (Zoo.load_from_file "2026-11-03" "zoo_state.json"
         (world_with "zoo_state.json" mixed_data))
  = fst (Zoo.load_from_file "2031-01-01" "backup.json"
           (world_with "backup.json" mixed_data)).
Proof.
  apply (proj2 (load_is_determined_by_document "2026-11-03" "2031-01-01"
                  "zoo_state.json" "backup.json"
                  (world_with "zoo_state.json" mixed_data)
                  (world_with "backup.json" mixed_data) mixed_data)).
  - vm_compute. reflexivity.
  - vm_compute. reflexivity.
Defined.

(** * Further properties of the code *)

(** ** Feeding and healing, composed *)

(** X1. Feeding in two portions, the second one not negative, leaves
    the animal as feeding the sum of the portions at once does. *)
Theorem eat_in_portions (a : Animal.t) (first second : Z) :
  0 <= second ->
  fst (Animal.eat (fst (Animal.eat a first)) second) = fst (Animal.eat a (first + second)).
Proof.
  intros Hsecond. rewrite !eat_unfold. unfold Animal.set_hunger. simpl.
  f_equal. lia.
Qed.

Lemma eat_in_portions_witness :
  fst (Animal.eat (fst (Animal.eat (Animal.set_hunger lion 50) 30)) 40)
  = fst (Animal.eat (Animal.set_hunger lion 50) (30 + 40)).
Proof. apply (eat_in_portions (Animal.set_hunger lion 50) 30 40). lia. Defined.

(** X2. [eat] does not reject a negative amount: on an animal whose
    hunger is not negative it raises the hunger by that amount, and
    feeding the same amount afterwards brings the hunger back. *)
Theorem eat_negative_amount_raises_hunger (a : Animal.t) (food_amount : Z) :
  food_amount < 0 ->
  0 <= Animal.hunger a ->
  Animal.hunger (fst (Animal.eat a food_amount)) = Animal.hunger a - food_amount
  /\ Animal.hunger a < Animal.hunger (fst (Animal.eat a food_amount))
  /\ fst (Animal.eat (fst (Animal.eat a food_amount)) (- food_amount)) = a.
Proof.
  intros Hneg Hhunger. rewrite !eat_unfold. simpl. repeat split; try lia.
  destruct a as [n g s h k c]. unfold Animal.set_hunger. simpl in *. f_equal. lia.
Qed.

Lemma eat_negative_amount_raises_hunger_witness :
  Animal.hunger (fst (Animal.eat lion (-7))) = 0 - (-7)
  /\ 0 < Animal.hunger (fst (Animal.eat lion (-7)))
  /\ fst (Animal.eat (fst (Animal.eat lion (-7))) (- (-7))) = lion.
Proof. apply (eat_negative_amount_raises_hunger lion (-7)); simpl; lia. Defined.

Lemma heal_repeatedly_health (v : Employee.t) (n : nat) (a : Animal.t) :
  Animal.health a <= 100 ->
  Animal.health (heal_repeatedly v n a) = Z.min 100 (Animal.health a + 20 * Z.of_nat n).
Proof.
  revert a. induction n as [|n IH]; intros a Hle.
  - simpl. lia.
  - cbn [heal_repeatedly]. destruct (Z.lt_ge_cases (Animal.health a) 100) as [Hlt|Hge].
    + rewrite heal_animal_below by assumption. cbn [fst].
      rewrite IH by (simpl; lia). simpl Animal.health. lia.
    + rewrite heal_animal_healthy by assumption. cbn [fst]. rewrite IH by assumption. lia.
Qed.

Lemma heal_repeatedly_frame (v : Employee.t) (n : nat) (a : Animal.t) (x : Z) :
  Animal.set_health (heal_repeatedly v n a) x = Animal.set_health a x.
Proof.
  revert a. induction n as [|n IH]; intros a; [reflexivity|].
  cbn [heal_repeatedly]. rewrite IH. unfold Veterinarian.heal_animal.
  destruct (Animal.health a <? 100)%Z; reflexivity.
Qed.

(** X3. On an animal with health at most 100, [n] successive
    treatments bring the health to [min(100, health + 20 * n)] and
    change no other field; from a health that is not negative, five
    treatments or more end at 100. *)
Theorem repeated_healing_reaches_100 (v : Employee.t) (n : nat) (a : Animal.t) :
  Animal.health a <= 100 ->
  heal_repeatedly v n a
  = Animal.set_health a (Z.min 100 (Animal.health a + 20 * Z.of_nat n))
  /\ (0 <= Animal.health a -> (5 <= n)%nat ->
      Animal.health (heal_repeatedly v n a) = 100).
Proof.
  intros Hle. split.
  - rewrite <- (heal_repeatedly_health v n a Hle), <- (heal_repeatedly_frame v n a).
    now destruct (heal_repeatedly v n a).
  - intros Hpos Hn. rewrite heal_repeatedly_health by assumption. lia.
Qed.

Lemma repeated_healing_reaches_100_witness :
  heal_repeatedly vet 2 (Animal.set_health eagle 30)
  = Animal.set_health (Animal.set_health eagle 30) (Z.min 100 (30 + 20 * Z.of_nat 2))
  /\ Animal.health (heal_repeatedly vet 5 (Animal.set_health eagle 0)) = 100.
Proof.
  split.
  - apply (repeated_healing_reaches_100 vet 2 (Animal.set_health eagle 30)). simpl. lia.
  - apply (repeated_healing_reaches_100 vet 5 (Animal.set_health eagle 0)); simpl; lia.
Defined.

(** X4. Feeding and treating one animal can be done in either order:
    the animal ends in the same state and each call returns the string
    it returns when it comes first. *)
Theorem feeding_and_healing_commute
    (k v : Employee.t) (a : Animal.t) (food_amount : Z) :
  let fed := fst (ZooKeeper.feed_animal k a food_amount) in
  let healed := fst (Veterinarian.heal_animal v a) in
  fst (Veterinarian.heal_animal v fed) = fst (ZooKeeper.feed_animal k healed food_amount)
  /\ snd (Veterinarian.heal_animal v fed) = snd (Veterinarian.heal_animal v a)
  /\ snd (ZooKeeper.feed_animal k healed food_amount)
     = snd (ZooKeeper.feed_animal k a food_amount).
Proof.
  cbv zeta. unfold Veterinarian.heal_animal, ZooKeeper.feed_animal, Animal.eat.
  cbn [fst snd Animal.set_hunger Animal.health Animal.name Animal.hunger].
  destruct (Animal.health a <? 100)%Z; repeat split.
Qed.

(** ** Empty listings *)

Lemma append_empty_l (s1 s2 : string) : s1 ++ s2 = "" -> s1 = "".
Proof. destruct s1; [reflexivity | discriminate]. Qed.

Lemma join_empty (sep : string) (lines : list string) :
  Forall (fun line => line <> "") lines -> (join sep lines = "" <-> lines = []).
Proof.
  intros Hlines. split; [|intros ->; reflexivity].
  destruct Hlines as [|line [|next rest] Hline _]; [reflexivity | |]; unfold join; simpl.
  - intros ->. contradiction.
  - intros Hempty. apply append_empty_l in Hempty. contradiction.
Qed.

Lemma lines_not_empty {A : Type} (line_of : A -> string) (l : list A) :
  (forall x, line_of x <> "") -> Forall (fun line => line <> "") (map line_of l).
Proof. intros Hline. induction l; simpl; constructor; auto. Qed.

Lemma animal_line_not_empty (a : Animal.t) : animal_line a <> "".
Proof.
  unfold animal_line. intros Hempty.
  destruct (Animal.species a); [|discriminate]. discriminate.
Qed.

Lemma employee_line_not_empty (e : Employee.t) : employee_line e <> "".
Proof. unfold employee_line, Employee.class_name. destruct (Employee.cls e); discriminate. Qed.

Lemma make_sound_not_empty (a : Animal.t) : Animal.make_sound a <> "".
Proof.
  unfold Animal.make_sound. destruct (Animal.cls a), (Animal.name a); discriminate.
Qed.

(** X5. A listing is the empty string exactly when the collection it
    lists is empty: an animal or employee always contributes a line that
    is not empty, even if its name and species are empty. *)
Theorem listing_empty_iff_no_entries (zoo : Zoo.t) :
  (Zoo.list_animals zoo = "" <-> Zoo.animals zoo = [])
  /\ (Zoo.list_employees zoo = "" <-> Zoo.employees zoo = [])
  /\ (Zoo.animal_sounds zoo = "" <-> Zoo.animals zoo = []).
Proof.
  unfold Zoo.list_animals, Zoo.list_employees, Zoo.animal_sounds.
  repeat split.
  - intros H. apply join_empty in H.
    + now destruct (Zoo.animals zoo).
    + apply lines_not_empty. apply animal_line_not_empty.
  - intros ->. reflexivity.
  - intros H. apply join_empty in H.
    + now destruct (Zoo.employees zoo).
    + apply lines_not_empty. apply employee_line_not_empty.
  - intros ->. reflexivity.
  - intros H. apply join_empty in H.
    + now destruct (Zoo.animals zoo).
    + apply lines_not_empty. apply make_sound_not_empty.
  - intros ->. reflexivity.
Qed.

(** ** What a saved document looks like *)

Lemma to_dict_matches (a : Animal.t) : animal_matches a (Animal.to_dict a).
Proof. destruct a as [n g s h k [w|c|v]]; repeat split. Qed.

Lemma to_dict_well_formed (a : Animal.t) :
  animal_known (Animal.to_dict a) = true
  /\ complete_animal (Animal.to_dict a) = true
  /\ own_keys_only (Animal.to_dict a) = Animal.to_dict a.
Proof. destruct a as [n g s h k [w|c|v]]; repeat split. Qed.

Lemma employee_to_dict_matches (e : Employee.t) :
  employee_matches e (Employee.to_dict e)
  /\ employee_known (Employee.to_dict e) = true
  /\ complete_employee (Employee.to_dict e) = true.
Proof. destruct e as [n i s [|]]; repeat split. Qed.

(** X6. The dictionary that [save_to_file] writes binds the four
    top-level keys; its records follow the animals and employees of the
    zoo one by one, in order; each record is tagged with the name of the
    class of its object, a name that the load recognizes, binds every
    key that class requires, and binds no key of another class. *)
Theorem saved_records_are_tagged_and_complete (zoo : Zoo.t) :
  exists rs es,
    ZooDict.name (Zoo.to_data zoo) = Some (Zoo.name zoo)
    /\ ZooDict.founded_date (Zoo.to_data zoo) = Some (Zoo.founded_date zoo)
    /\ ZooDict.animals (Zoo.to_data zoo) = Some rs
    /\ ZooDict.employees (Zoo.to_data zoo) = Some es
    /\ Forall2 animal_matches (Zoo.animals zoo) rs
    /\ Forall2 employee_matches (Zoo.employees zoo) es
    /\ Forall (fun r => animal_known r = true /\ complete_animal r = true
                        /\ own_keys_only r = r) rs
    /\ Forall (fun r => employee_known r = true /\ complete_employee r = true) es.
Proof.
  exists (map Animal.to_dict (Zoo.animals zoo)), (map Employee.to_dict (Zoo.employees zoo)).
  repeat split.
  - induction (Zoo.animals zoo); simpl; constructor; [apply to_dict_matches | assumption].
  - induction (Zoo.employees zoo); simpl; constructor;
      [apply employee_to_dict_matches | assumption].
  - induction (Zoo.animals zoo); simpl; constructor;
      [apply to_dict_well_formed | assumption].
  - induction (Zoo.employees zoo); simpl; constructor;
      [split; apply employee_to_dict_matches | assumption].
Qed.

(** X7. Nothing is lost in serialization: two animals with the same
    [to_dict] are equal, two employees with the same [to_dict] are
    equal, and two zoos of which [save_to_file] builds the same
    dictionary are equal. *)
Theorem to_dict_is_injective
    (a1 a2 : Animal.t) (e1 e2 : Employee.t) (zoo1 zoo2 : Zoo.t) :
  (Animal.to_dict a1 = Animal.to_dict a2 -> a1 = a2)
  /\ (Employee.to_dict e1 = Employee.to_dict e2 -> e1 = e2)
  /\ (Zoo.to_data zoo1 = Zoo.to_data zoo2 -> zoo1 = zoo2).
Proof.
  repeat split.
  - intros Heq. pose proof (load_animal_to_dict (Zoo.init "" "") a1) as H1.
    rewrite Heq, load_animal_to_dict in H1. injection H1 as H1. congruence.
  - intros Heq. pose proof (load_employee_to_dict (Zoo.init "" "") e1) as H1.
    rewrite Heq, load_employee_to_dict in H1. injection H1 as H1. congruence.
  - intros Heq. pose proof (from_data_to_data "" zoo1) as H1.
    rewrite Heq, from_data_to_data in H1. congruence.
Qed.

Lemma to_dict_is_injective_witness :
  Animal.set_hunger (Animal.set_health lion 100) 0 = lion
  /\ Employee.init "John" "ZK001" "Large mammals" Employee.ZooKeeper = keeper
  /\ Zoo.add_employee central_zoo vet = Zoo.add_employee central_zoo vet.
Proof.
  pose proof (to_dict_is_injective (Animal.set_hunger (Animal.set_health lion 100) 0) lion
                (Employee.init "John" "ZK001" "Large mammals" Employee.ZooKeeper) keeper
                (Zoo.add_employee central_zoo vet) (Zoo.add_employee central_zoo vet))
    as (Ha & He & Hz).
  split; [|split]; [apply Ha | apply He | apply Hz]; reflexivity.
Defined.

(** ** Load followed by save *)

Lemma matches_to_dict (a : Animal.t) (r : AnimalDict.t) :
  animal_matches a r -> Animal.to_dict a = own_keys_only r.
Proof.
  destruct a as [n g s h k c], r as [ty rn rg rs rh rk rw rc rv].
  unfold animal_matches, own_keys_only, own_slot, Animal.to_dict, Animal.base_to_dict,
    Animal.class_name.
  simpl. intros (-> & -> & -> & -> & -> & -> & Hown).
  destruct c; simpl in *; subst; reflexivity.
Qed.

Lemma employee_matches_to_dict (e : Employee.t) (r : EmployeeDict.t) :
  employee_matches e r -> Employee.to_dict e = r.
Proof.
  destruct e as [n i s c], r as [ty rn ri rs]. unfold employee_matches, Employee.to_dict.
  simpl. intros (-> & -> & -> & ->). reflexivity.
Qed.

Lemma from_data_then_to_data (today : string) (data : ZooDict.t) (zoo : Zoo.t) :
  Zoo.from_data today data = Returns zoo -> Zoo.to_data zoo = kept_by_load data.
Proof.
  intros Hload. pose proof (from_data_spec today data) as Hspec. rewrite Hload in Hspec.
  destruct Hspec as (rs & es & Hn & Hf & Hrs & Hes & _ & _ & Hma & Hme).
  destruct data as [dn df drs des]. simpl in *. subst.
  unfold Zoo.to_data, kept_by_load. simpl. f_equal; f_equal.
  - clear -Hma. induction Hma as [|a r l rs' Hm _ IH]; simpl; [reflexivity|].
    now rewrite IH, (matches_to_dict a r Hm).
  - clear -Hme. induction Hme as [|e r l es' Hm _ IH]; simpl; [reflexivity|].
    now rewrite IH, (employee_matches_to_dict e r Hm).
Qed.

(** X8. Saving a zoo that was loaded from a document writes the
    document reduced to what the load keeps: the same name and founded
    date, the records with a known tag in their order, each animal
    record without the keys of other classes. The records with an
    unknown tag are not in the new file. *)
Theorem save_after_load_writes_kept_records
    (today filename target : string) (w w1 w2 : world) (data : ZooDict.t) (zoo : Zoo.t) :
  files w !! filename = Some (Json data) ->
  fst (Zoo.load_from_file today filename w) = Returns zoo ->
  Zoo.save_to_file zoo target w1 = (Returns tt, w2) ->
  files w2 !! target = Some (Json (kept_by_load data)).
Proof.
  intros Hfile Hload Hsave. rewrite (load_from_file_json _ _ _ _ Hfile) in Hload.
  rewrite <- (from_data_then_to_data _ _ _ Hload).
  exact (save_to_file_written _ _ _ _ Hsave).
Qed.

Lemma save_after_load_writes_kept_records_witness :
  files (snd (Zoo.save_to_file central_zoo "copy.json" empty_world)) !! "copy.json"
  = Some (Json (kept_by_load furry_data)).
Proof.
  apply (save_after_load_writes_kept_records "2026-11-03" "zoo_state.json" "copy.json"
           (world_with "zoo_state.json" furry_data) empty_world _ furry_data central_zoo).
  - vm_compute. reflexivity.
  - vm_compute. reflexivity.
  - vm_compute. reflexivity.
Defined.

(** ** Records that the load passes over *)

Lemma load_animal_unknown (zoo : Zoo.t) (r : AnimalDict.t) :
  animal_unknown r = true -> Zoo.load_animal zoo r = Returns zoo.
Proof.
  intros Hu. pose proof (load_animal_spec zoo r) as Hr.
  pose proof (known_unknown_tag _ _ Hu) as Hk. fold (animal_known r) in Hk.
  destruct (Zoo.load_animal zoo r) as [zoo'|e].
  - destruct Hr as [_ [(Hk' & _) | (_ & ->)]]; [congruence | reflexivity].
  - destruct Hr as [_ Hbad]. unfold loadable_animal in Hbad. rewrite Hu in Hbad. discriminate.
Qed.

Lemma load_employee_unknown (zoo : Zoo.t) (r : EmployeeDict.t) :
  employee_unknown r = true -> Zoo.load_employee zoo r = Returns zoo.
Proof.
  intros Hu. pose proof (load_employee_spec zoo r) as Hr.
  pose proof (known_unknown_tag _ _ Hu) as Hk. fold (employee_known r) in Hk.
  destruct (Zoo.load_employee zoo r) as [zoo'|e].
  - destruct Hr as [_ [(Hk' & _) | (_ & ->)]]; [congruence | reflexivity].
  - destruct Hr as [_ Hbad]. unfold loadable_employee in Hbad. rewrite Hu in Hbad.
    discriminate.
Qed.

Lemma load_animals_without_unknown (rs : list AnimalDict.t) (zoo : Zoo.t) :
  Zoo.load_animals zoo (List.filter (fun r => negb (animal_unknown r)) rs)
  = Zoo.load_animals zoo rs.
Proof.
  revert zoo. induction rs as [|r rs IH]; intros zoo; [reflexivity|].
  simpl. destruct (animal_unknown r) eqn:Hu; simpl.
  - rewrite (load_animal_unknown zoo r Hu). simpl. apply IH.
  - destruct (Zoo.load_animal zoo r); simpl; [apply IH | reflexivity].
Qed.

Lemma load_employees_without_unknown (rs : list EmployeeDict.t) (zoo : Zoo.t) :
  Zoo.load_employees zoo (List.filter (fun r => negb (employee_unknown r)) rs)
  = Zoo.load_employees zoo rs.
Proof.
  revert zoo. induction rs as [|r rs IH]; intros zoo; [reflexivity|].
  simpl. destruct (employee_unknown r) eqn:Hu; simpl.
  - rewrite (load_employee_unknown zoo r Hu). simpl. apply IH.
  - destruct (Zoo.load_employee zoo r); simpl; [apply IH | reflexivity].
Qed.

(** X9. Records whose tag names no class leave no trace in a load:
    taking them out of the document changes neither the zoo that is
    returned nor the exception that is raised. *)
Theorem unknown_records_leave_no_trace (today : string) (data : ZooDict.t) :
  Zoo.from_data today (without_unknown data) = Zoo.from_data today data.
Proof.
  destruct data as [[n|] [f|] [rs|] es]; try reflexivity.
  unfold Zoo.from_data, without_unknown. simpl.
  rewrite load_animals_without_unknown.
  destruct (Zoo.load_animals _ rs) as [zoo|e]; [|reflexivity]. simpl.
  destruct es as [es|]; [|reflexivity]. simpl.
  apply load_employees_without_unknown.
Qed.

(** ** The first failure ends the load *)

Lemma load_animals_app (rs1 rs2 : list AnimalDict.t) (zoo : Zoo.t) :
  Zoo.load_animals zoo (rs1 ++ rs2)
  = (zoo' ← Zoo.load_animals zoo rs1; Zoo.load_animals zoo' rs2).
Proof.
  revert zoo. induction rs1 as [|r rs1 IH]; intros zoo; [reflexivity|].
  simpl. destruct (Zoo.load_animal zoo r); simpl; [apply IH | reflexivity].
Qed.

Lemma load_employees_app (rs1 rs2 : list EmployeeDict.t) (zoo : Zoo.t) :
  Zoo.load_employees zoo (rs1 ++ rs2)
  = (zoo' ← Zoo.load_employees zoo rs1; Zoo.load_employees zoo' rs2).
Proof.
  revert zoo. induction rs1 as [|r rs1 IH]; intros zoo; [reflexivity|].
  simpl. destruct (Zoo.load_employee zoo r); simpl; [apply IH | reflexivity].
Qed.

(** X10. The first record that raises ends the load: whatever records
    follow it in its list have no influence on the exception, and when
    it is an animal record, neither has anything bound to ["employees"],
    that key being absent included. *)
Theorem first_failing_record_ends_load
    (today : string) (data : ZooDict.t) (zoo : Zoo.t) (e : exn)
    (rs1 rs2 : list AnimalDict.t) (es1 es2 : list EmployeeDict.t)
    (other : option (list EmployeeDict.t)) :
  (Zoo.load_animals zoo rs1 = Raises e -> Zoo.load_animals zoo (rs1 ++ rs2) = Raises e)
  /\ (Zoo.load_employees zoo es1 = Raises e ->
      Zoo.load_employees zoo (es1 ++ es2) = Raises e)
  /\ (ZooDict.animals data = Some rs1 ->
      ~ Forall (fun r => loadable_animal r = true) rs1 ->
      Zoo.from_data today (with_employees data other) = Zoo.from_data today data).
Proof.
  split; [|split].
  - intros Hfail. now rewrite load_animals_app, Hfail.
  - intros Hfail. now rewrite load_employees_app, Hfail.
  - intros Hrs Hbad. destruct data as [[n|] [f|] rs es]; try reflexivity.
    simpl in Hrs. subst rs. unfold Zoo.from_data, with_employees. simpl.
    pose proof (load_animals_spec rs1 (Zoo.set_founded_date (Zoo.init today n) f)) as Hspec.
    destruct (Zoo.load_animals _ rs1) as [zoo'|e'].
    + destruct Hspec as [Hall _]. contradiction.
    + reflexivity.
Qed.

Lemma first_failing_record_ends_load_witness :
  Zoo.load_animals (Zoo.init "2026-11-03" "Central Zoo")
    ([Animal.to_dict eagle; wingless_record] ++ [Animal.to_dict lion])
  = Raises (KeyError "wingspan")
  /\ Zoo.load_employees (Zoo.init "2026-11-03" "Central Zoo")
       ([{| EmployeeDict.type := Some "ZooKeeper"; EmployeeDict.name := Some "John";
            EmployeeDict.id_number := None; EmployeeDict.specialization := None |}]
        ++ [Employee.to_dict vet])
     = Raises (KeyError "id_number")
  /\ Zoo.from_data "2026-11-03" (with_employees malformed_data None)
     = Zoo.from_data "2026-11-03" malformed_data.
Proof.
  pose proof (first_failing_record_ends_load "2026-11-03" malformed_data
                (Zoo.init "2026-11-03" "Central Zoo") (KeyError "wingspan")
                [Animal.to_dict eagle; wingless_record] [Animal.to_dict lion] [] [] None)
    as (Ha & _ & _).
  pose proof (first_failing_record_ends_load "2026-11-03" malformed_data
                (Zoo.init "2026-11-03" "Central Zoo") (KeyError "id_number") [] []
                [{| EmployeeDict.type := Some "ZooKeeper"; EmployeeDict.name := Some "John";
                    EmployeeDict.id_number := None; EmployeeDict.specialization := None |}]
                [Employee.to_dict vet] None)
    as (_ & He & _).
  pose proof (first_failing_record_ends_load "2026-11-03" malformed_data
                (Zoo.init "2026-11-03" "Central Zoo") (KeyError "wingspan")
                [Animal.to_dict eagle; Animal.to_dict lion; wingless_record] [] [] [] None)
    as (_ & _ & Hd).
  split; [|split].
  - apply Ha. vm_compute. reflexivity.
  - apply He. vm_compute. reflexivity.
  - apply Hd; [reflexivity|].
    intros Hall. inversion Hall as [|? ? _ Hall1]; subst.
    inversion Hall1 as [|? ? _ Hall2]; subst.
    inversion Hall2 as [|? ? Hw _]; subst. vm_compute in Hw. discriminate.
Defined.

(** ** The key that a [KeyError] names *)

(** The lookup that raised names a key of the format that the record
    does not bind. *)
Ltac absent_key := eexists; split; [reflexivity | split; [simpl; tauto | reflexivity]].

Ltac lookups_or_absent slots :=
  lazymatch slots with
  | (?rest, ?slot) => lookups_or_absent rest; destruct slot; cbn; try absent_key
  | tt => idtac
  end.

Lemma load_animal_key_error (zoo : Zoo.t) (r : AnimalDict.t) :
  match Zoo.load_animal zoo r with
  | Returns _ => True
  | Raises e =>
      exists key, e = KeyError key /\ In key animal_keys /\ animal_binds r key = false
  end.
Proof.
  destruct r as [ty n g s h k w c v]. unfold Zoo.load_animal, Zoo.construct_animal.
  destruct ty as [ty|]; [|absent_key].
  cbn [AnimalDict.type AnimalDict.name AnimalDict.age AnimalDict.species
       AnimalDict.health AnimalDict.hunger AnimalDict.wingspan
       AnimalDict.fur_color AnimalDict.is_venomous getitem mbind result_bind].
  destruct (String.eqb ty "Bird").
  { lookups_or_absent (tt, n, g, s, w, h, k). exact I. }
  destruct (String.eqb ty "Mammal").
  { lookups_or_absent (tt, n, g, s, c, h, k). exact I. }
  destruct (String.eqb ty "Reptile").
  { lookups_or_absent (tt, n, g, s, v, h, k). exact I. }
  exact I.
Qed.

Lemma load_employee_key_error (zoo : Zoo.t) (r : EmployeeDict.t) :
  match Zoo.load_employee zoo r with
  | Returns _ => True
  | Raises e =>
      exists key, e = KeyError key /\ In key employee_keys /\ employee_binds r key = false
  end.
Proof.
  destruct r as [ty n i s]. unfold Zoo.load_employee, Zoo.construct_employee.
  destruct ty as [ty|]; [|absent_key].
  cbn [EmployeeDict.type EmployeeDict.name EmployeeDict.id_number
       EmployeeDict.specialization getitem mbind result_bind].
  destruct (String.eqb ty "ZooKeeper").
  { lookups_or_absent (tt, n, i, s). exact I. }
  destruct (String.eqb ty "Veterinarian").
  { lookups_or_absent (tt, n, i, s). exact I. }
  exact I.
Qed.

Lemma load_animals_key_error (rs : list AnimalDict.t) (zoo : Zoo.t) (e : exn) :
  Zoo.load_animals zoo rs = Raises e ->
  exists key r, e = KeyError key /\ In key animal_keys
                /\ In r rs /\ animal_binds r key = false.
Proof.
  revert zoo. induction rs as [|r rs IH]; intros zoo; [discriminate|].
  cbn [Zoo.load_animals]. pose proof (load_animal_key_error zoo r) as Hr.
  destruct (Zoo.load_animal zoo r) as [z1|e1]; cbn [mbind result_bind].
  - intros Hrest. destruct (IH z1 Hrest) as (key & r' & He & Hk & Hin & Hb).
    exists key, r'. repeat split; try assumption. now right.
  - intros [= <-]. destruct Hr as (key & He & Hk & Hb).
    exists key, r. repeat split; try assumption. now left.
Qed.

Lemma load_employees_key_error (rs : list EmployeeDict.t) (zoo : Zoo.t) (e : exn) :
  Zoo.load_employees zoo rs = Raises e ->
  exists key r, e = KeyError key /\ In key employee_keys
                /\ In r rs /\ employee_binds r key = false.
Proof.
  revert zoo. induction rs as [|r rs IH]; intros zoo; [discriminate|].
  cbn [Zoo.load_employees]. pose proof (load_employee_key_error zoo r) as Hr.
  destruct (Zoo.load_employee zoo r) as [z1|e1]; cbn [mbind result_bind].
  - intros Hrest. destruct (IH z1 Hrest) as (key & r' & He & Hk & Hin & Hb).
    exists key, r'. repeat split; try assumption. now right.
  - intros [= <-]. destruct Hr as (key & He & Hk & Hb).
    exists key, r. repeat split; try assumption. now left.
Qed.

(** X11. A [KeyError] out of [load_from_file] comes from a file that
    holds a document, and the key it names is really absent: it is one
    of the four top-level keys and the document does not bind it, or a
    key of the animal records that one of the animal records does not
    bind, or a key of the employee records that one of the employee
    records does not bind. *)
Theorem key_error_names_an_absent_key
    (today filename : string) (w : world) (key : string) :
  fst (Zoo.load_from_file today filename w) = Raises (KeyError key) ->
  exists data,
    files w !! filename = Some (Json data)
    /\ ((In key data_keys /\ data_binds data key = false)
        \/ (In key animal_keys
            /\ exists rs r, ZooDict.animals data = Some rs /\ In r rs
                            /\ animal_binds r key = false)
        \/ (In key employee_keys
            /\ exists es r, ZooDict.employees data = Some es /\ In r es
                            /\ employee_binds r key = false)).
Proof.
  unfold Zoo.load_from_file, open_r.
  destruct (files w !! filename) as [[data|]|]; simpl; try discriminate.
  intros Hraise. exists data. split; [reflexivity|].
  destruct data as [n f rs es]. unfold Zoo.from_data in Hraise. simpl in Hraise.
  destruct n as [n|]; [|injection Hraise as <-; left; split; [simpl; tauto | reflexivity]].
  destruct f as [f|]; [|injection Hraise as <-; left; split; [simpl; tauto | reflexivity]].
  destruct rs as [rs|]; [|injection Hraise as <-; left; split; [simpl; tauto | reflexivity]].
  simpl in Hraise.
  destruct (Zoo.load_animals _ rs) as [z1|e1] eqn:Hanimals; simpl in Hraise.
  - destruct es as [es|];
      [|injection Hraise as <-; left; split; [simpl; tauto | reflexivity]].
    simpl in Hraise. apply load_employees_key_error in Hraise.
    destruct Hraise as (key' & r & [= <-] & Hk & Hin & Hb).
    right. right. split; [assumption|]. exists es, r. repeat split; assumption.
  - injection Hraise as ->. apply load_animals_key_error in Hanimals.
    destruct Hanimals as (key' & r & [= <-] & Hk & Hin & Hb).
    right. left. split; [assumption|]. exists rs, r. repeat split; assumption.
Qed.

Lemma key_error_names_an_absent_key_witness :
  exists data,
    files (world_with "zoo_state.json" malformed_data) !! "zoo_state.json" = Some (Json data)
    /\ ((In "wingspan" data_keys /\ data_binds data "wingspan" = false)
        \/ (In "wingspan" animal_keys
            /\ exists rs r, ZooDict.animals data = Some rs /\ In r rs
                            /\ animal_binds r "wingspan" = false)
        \/ (In "wingspan" employee_keys
            /\ exists es r, ZooDict.employees data = Some es /\ In r es
                            /\ employee_binds r "wingspan" = false)).
Proof.
  apply (key_error_names_an_absent_key "2026-11-03" "zoo_state.json"
           (world_with "zoo_state.json" malformed_data) "wingspan").
  vm_compute. reflexivity.
Defined.

(** ** What a load and a save do to the file system *)






